(** * localai-rag-k3s: the two HTTP service facades

    A shallow embedding of the request handlers of
    [colqwen2/docker/server.py] (visual embedding service) and
    [rag-anything/docker/server.py] (RAG service), and the properties the
    specification states about them.

    Conventions.
    - A Python exception is a value of [PyExn]: its class, as far as the
      [except] clauses of the two servers tell classes apart, and its text
      ([str(e)]).
    - A handler either returns its response or raises [HTTPException]; it is
      a function to [HTTPException + response].
    - Calls into the external collaborators (image decoding, the embedding
      model, the RAG engine, the embeddings endpoint, the clock, the uuid
      generator) are parameters of the model: nothing is assumed about what
      they answer.
    - Python floats are binary64 values ([float] of [PrimFloat]). *)

From Stdlib Require Import Floats.
From stdpp Require Import gmap strings list fin_maps.

Set Warnings "-inexact-float".
Set Default Proof Using "Type".

(** ** Exceptions *)

Inductive ExnClass :=
| ValueError
| RuntimeError
| KeyError
| AttributeError
| OtherError.

(** An exception derived from [Exception] (what [except Exception] catches):
    its class and its text [str(e)]. Subclasses of [ValueError] count as
    [ValueError]; [OtherError] stands for every class the handlers do not
    single out. *)
Record PyExn := mkExn { exn_class : ExnClass; exn_str : string }.

(** [fastapi.HTTPException(status_code, detail)] *)
Record HTTPException := HTTP { status_code : Z; detail : string }.

(** The [except ValueError / except Exception] pair that closes the [try]
    block of both embedding handlers. *)
Definition http_of_exn (e : PyExn) : HTTPException :=
  match exn_class e with
  | ValueError => HTTP 400 (exn_str e)
  | _ => HTTP 500 (exn_str e)
  end.

(** * The visual embedding service (colqwen2/docker/server.py) *)

Module ColQwen2.

Record EmbedRequest := { image : string }.

Record EmbedBatchRequest := { images : list string }.

Record EmbedResponse := { embedding : list float; dim : nat }.

Record EmbedBatchResponse :=
  { embeddings : list (list float); count : nat; batch_dim : nat }.

Record HealthResponse :=
  { status : string;
    gpu_available : bool;
    model_loaded : bool;
    model_name : string;
    health_device : string }.

Section Service.

(** The decoded RGB raster and the two handles that [load_model] obtains
    from [colpali_engine]. *)
Context {Image Model Processor : Type}.

(** [Image.open(io.BytesIO(base64.b64decode(s))).convert("RGB")]: the body
    of the [try] of [decode_image]. *)
Variable b64_open : string → PyExn + Image.

(** The body of [embed_image] past its guard: [processor.process_images]
    on the image, the call of [model] on the processed inputs, and the
    pooling [mean(dim=1).squeeze().cpu().numpy().tolist()]. *)
Variable forward : Model → Processor → Image → PyExn + list float.

(** [Config.MODEL_NAME] *)
Variable MODEL_NAME : string.

(** The module globals [model], [processor], [device]. *)
Record Globals :=
  { model : option Model;
    processor : option Processor;
    device : option string }.

(** The calls a handler makes into the external libraries, in order. *)
Inductive Call :=
| Decode (base64_str : string)
| Forward (img : Image).

(** The globals before [load_model] runs. *)
Definition unset : Globals :=
  {| model := None; processor := None; device := None |}.

(** [load_model]: the outcome of the import of [colpali_engine], of
    [torch.cuda.is_available()], of [ColQwen2.from_pretrained] (with its
    move to the device), of [ColQwen2Processor.from_pretrained] and of
    [model.eval()] decide what the globals hold afterwards; an exception
    at any step leaves the assignments made before it and the function
    returns [False]. *)
Definition load_model (imported : PyExn + unit) (cuda_is_available : bool)
    (model_from_pretrained : PyExn + Model)
    (processor_from_pretrained : PyExn + Processor)
    (model_eval : PyExn + unit) (g : Globals)
  : bool * Globals :=
  match imported with
  | inl _ => (false, g)
  | inr _ =>
      let dev := Some (if cuda_is_available then "cuda" else "cpu") in
      match model_from_pretrained with
      | inl _ =>
          (false, {| model := model g; processor := processor g; device := dev |})
      | inr m =>
          match processor_from_pretrained with
          | inl _ =>
              (false, {| model := Some m; processor := processor g; device := dev |})
          | inr p =>
              let loaded :=
                {| model := Some m; processor := Some p; device := dev |} in
              match model_eval with
              | inl _ => (false, loaded)
              | inr _ => (true, loaded)
              end
          end
      end
  end.

(** Computations that may raise and that record their external calls. *)
Definition M (A : Type) : Type := list Call → (PyExn + A) * list Call.

Definition ret {A} (a : A) : M A := λ log, (inr a, log).

Definition raise {A} (e : PyExn) : M A := λ log, (inl e, log).

Definition bind {A B} (c : M A) (k : A → M B) : M B :=
  λ log,
    match c log with
    | (inr a, log') => k a log'
    | (inl e, log') => (inl e, log')
    end.

Notation "'let*' x := c 'in' k" := (bind c (λ x, k))
  (at level 10, x name, c at level 100, k at level 200).

Definition decode_image (base64_str : string) : M Image :=
  λ log,
    match b64_open base64_str with
    | inr img => (inr img, log ++ [Decode base64_str])
    | inl e =>
        (inl (mkExn ValueError ("Invalid image data: " +:+ exn_str e)),
         log ++ [Decode base64_str])
    end.

Definition embed_image (g : Globals) (img : Image) : M (list float) :=
  match model g, processor g with
  | Some m, Some p => λ log, (forward m p img, log ++ [Forward img])
  | _, _ => raise (mkExn RuntimeError "Model not loaded")
  end.

Definition health_check (g : Globals) (cuda_is_available : bool)
  : HealthResponse :=
  let loaded := bool_decide (model g ≠ None) && bool_decide (processor g ≠ None) in
  {| status := if loaded then "healthy" else "degraded";
     gpu_available := cuda_is_available;
     model_loaded := loaded;
     model_name := MODEL_NAME;
     health_device := default "none" (device g) |}.

(** The [try ... except ValueError ... except Exception ...] of the two
    handlers. *)
Definition try_http {A} (c : M A) : list Call → (HTTPException + A) * list Call :=
  λ log,
    match c log with
    | (inr a, log') => (inr a, log')
    | (inl e, log') => (inl (http_of_exn e), log')
    end.

Definition embed (g : Globals) (request : EmbedRequest)
  : list Call → (HTTPException + EmbedResponse) * list Call :=
  match model g with
  | None => λ log, (inl (HTTP 503 "Model not loaded"), log)
  | Some _ =>
      try_http
        (let* img := decode_image (image request) in
         let* embedding := embed_image g img in
         ret {| embedding := embedding; dim := length embedding |})
  end.

(** The [for img_b64 in request.images] loop, with the list [embeddings]
    it appends to. *)
Fixpoint embed_loop (g : Globals) (imgs : list string)
    (embeddings : list (list float)) : M (list (list float)) :=
  match imgs with
  | [] => ret embeddings
  | img_b64 :: rest =>
      let* img := decode_image img_b64 in
      let* embedding := embed_image g img in
      embed_loop g rest (embeddings ++ [embedding])
  end.

Definition embed_batch (g : Globals) (request : EmbedBatchRequest)
  : list Call → (HTTPException + EmbedBatchResponse) * list Call :=
  match model g with
  | None => λ log, (inl (HTTP 503 "Model not loaded"), log)
  | Some _ =>
      try_http
        (let* embeddings := embed_loop g (images request) [] in
         ret {| embeddings := embeddings;
                count := length embeddings;
                batch_dim := match embeddings with
                             | e0 :: _ => length e0
                             | [] => 0
                             end |})
  end.

(** ** Vocabulary of the statements *)

(** The image [base64_str] decodes and the model embeds it as [v]. *)
Definition embeds (m : Model) (p : Processor) (base64_str : string)
    (v : list float) : Prop :=
  ∃ img, b64_open base64_str = inr img ∧ forward m p img = inr v.

(** The external calls that handling one decodable-or-not image makes when
    both handles are present. *)
Definition calls_of (base64_str : string) : list Call :=
  Decode base64_str ::
    match b64_open base64_str with
    | inr img => [Forward img]
    | inl _ => []
    end.

End Service.

(** A concrete instance for examples: an image is its own base64 text, the
    empty text is no image, the model answers a fixed two-value vector and
    fails on the image ["oom"]. *)
Module Sample.

Definition b64_open (s : string) : PyExn + string :=
  if decide (s = "") then inl (mkExn OtherError "cannot identify image file")
  else inr s.

Definition forward (_ _ : unit) (img : string) : PyExn + list float :=
  if decide (img = "oom") then inl (mkExn RuntimeError "CUDA out of memory")
  else inr [1.0%float; 0.5%float].

Definition loaded : Globals :=
  {| model := Some (); processor := Some (); device := Some "cpu" |}.

Definition unloaded : Globals :=
  {| model := @None unit; processor := @None unit; device := None |}.

Definition no_processor : Globals :=
  {| model := Some (); processor := @None unit; device := Some "cpu" |}.

End Sample.

End ColQwen2.

(** * The RAG service (rag-anything/docker/server.py, config.py) *)

Module RagAnything.

(** [config.Config]: the fields, with their defaults when the environment
    sets nothing in [config]. *)
Record Config :=
  { localai_url : string;
    localai_api_key : string;
    llm_model : string;
    vision_model : string;
    embedding_model : string;
    embedding_dim : Z;
    qdrant_url : string;
    qdrant_api_key : option string;
    working_dir : string;
    documents_dir : string;
    cache_dir : string;
    parser : string;
    enable_image_processing : bool;
    enable_table_processing : bool;
    enable_equation_processing : bool;
    log_level : string }.

Definition config : Config :=
  {| localai_url := "http://localai:8080/v1";
     localai_api_key := "not-needed";
     llm_model := "llama3";
     vision_model := "llava";
     embedding_model := "all-minilm-l6-v2";
     embedding_dim := 384;
     qdrant_url := "http://qdrant:6333";
     qdrant_api_key := None;
     working_dir := "/data/rag";
     documents_dir := "/data/documents";
     cache_dir := "/data/cache";
     parser := "mineru";
     enable_image_processing := true;
     enable_table_processing := true;
     enable_equation_processing := true;
     log_level := "INFO" |}.

(** ** The pydantic models *)

Module QueryRequest.
Record t := mk
  { query : string;
    mode : string;
    multimodal : bool;
    top_k : Z }.
End QueryRequest.

Module QueryResponse.
Record t := mk
  { answer : string;
    sources : list (gmap string string);
    mode : string;
    processing_time : float }.
End QueryResponse.

Module DocumentStatus.
Record t := mk
  { document_id : string;
    filename : string;
    status : string;
    progress : float;
    error : option string;
    created_at : string }.

(** Attribute assignments [record.status = s], [record.progress = p],
    [record.error = e]. *)
Definition set_status (s : string) (r : t) : t :=
  mk (document_id r) (filename r) s (progress r) (error r) (created_at r).

Definition set_progress (p : float) (r : t) : t :=
  mk (document_id r) (filename r) (status r) p (error r) (created_at r).

Definition set_error (e : option string) (r : t) : t :=
  mk (document_id r) (filename r) (status r) (progress r) e (created_at r).
End DocumentStatus.

(** The multipart upload: its file name and its bytes, as
    [await file.read()] returns them. *)
Module UploadFile.
Record t := mk { filename : string; content : string }.
End UploadFile.

(** The JSON object [upload_document] returns. *)
Module UploadResponse.
Record t := mk { document_id : string; status : string }.
End UploadResponse.

(** ** Paths

    [pathlib] on a POSIX system: a path is a root (none, one slash, or
    exactly two) and the components between the slashes, the empty ones
    and the single dots dropped; a double dot is kept as it is. *)

Definition slash : Ascii.ascii :=
  Ascii.Ascii true true true true false true false false.

(** [s.split("/")] *)
Fixpoint split_slash (s : string) : list string :=
  match s with
  | EmptyString => [EmptyString]
  | String c rest =>
      if Ascii.eqb c slash then EmptyString :: split_slash rest
      else
        match split_slash rest with
        | first :: others => String c first :: others
        | [] => [String c EmptyString]
        end
  end.

(** ["/".join(parts)] *)
Fixpoint join_slash (parts : list string) : string :=
  match parts with
  | [] => ""
  | [part] => part
  | part :: rest => part +:+ "/" +:+ join_slash rest
  end.

(** The root of a path: two leading slashes are kept, three or more are
    one. *)
Definition path_root (s : string) : string :=
  match s with
  | String a rest =>
      if Ascii.eqb a slash then
        match rest with
        | String b rest' =>
            if Ascii.eqb b slash then
              match rest' with
              | String c _ => if Ascii.eqb c slash then "/" else "//"
              | EmptyString => "//"
              end
            else "/"
        | EmptyString => "/"
        end
      else ""
  | EmptyString => ""
  end.

Definition path_parts (s : string) : list string :=
  filter (λ part, part ≠ "" ∧ part ≠ ".") (split_slash s).

(** [str(path)] *)
Definition path_str (root : string) (parts : list string) : string :=
  match root, parts with
  | EmptyString, [] => "."
  | _, _ => root +:+ join_slash parts
  end.

(** [str(Path(dir) / name)]: a [name] with a root replaces [dir]. *)
Definition path_join (dir name : string) : string :=
  match path_root name with
  | EmptyString =>
      path_str (path_root dir) (path_parts dir ++ path_parts name)
  | root => path_str root (path_parts name)
  end.

(** ** The file system

    Directories by path, each with its entries by name. Only the
    directories the handlers name are tracked. The creation and removal of
    the per-document directories succeed (no permission or disk errors);
    the file-system calls of an upload, whose outcome depends on the file
    name the client chose, are a parameter of [upload_document]. *)

(** [Path.mkdir(parents=True, exist_ok=True)] *)
Definition mkdir (fs : gmap string (gmap string string)) (d : string)
  : gmap string (gmap string string) :=
  match fs !! d with
  | Some _ => fs
  | None => <[d := ∅]> fs
  end.

(** [Path.exists()] *)
Definition path_exists (fs : gmap string (gmap string string)) (d : string) : bool :=
  bool_decide (is_Some (fs !! d)).

(** The paths [shutil.rmtree(d)] removes: [d] and everything below it. *)
Definition under (d p : string) : bool :=
  bool_decide (p = d) || String.prefix (d +:+ "/") p.

Definition rmtree (fs : gmap string (gmap string string)) (d : string)
  : gmap string (gmap string string) :=
  filter (λ kv, under d kv.1 = false) fs.

(** ** Global state

    [processing_status], the disk, and the background tasks FastAPI holds
    for after the response (the arguments of each [process_document]). The
    third global, [rag_instance], is set once at startup and passed to the
    handlers as an argument. *)
Record Globals :=
  { processing_status : gmap string DocumentStatus.t;
    fs : gmap string (gmap string string);
    background_tasks : list (string * string) }.

(** A coroutine step: it may raise, and it resumes in the store as it is by
    then. For an awaited call into the engine, the store it resumes in is
    the one the engine and whatever handlers ran meanwhile left behind. *)
Definition Await (A : Type) : Type := Globals → (PyExn + A) * Globals.

Definition ret {A} (a : A) : Await A := λ g, (inr a, g).

Definition raise {A} (e : PyExn) : Await A := λ g, (inl e, g).

Definition bind {A B} (c : Await A) (k : A → Await B) : Await B :=
  λ g,
    match c g with
    | (inr a, g') => k a g'
    | (inl e, g') => (inl e, g')
    end.

(** [try: c  except Exception as e: h e] *)
Definition try_except {A} (c : Await A) (h : PyExn → Await A) : Await A :=
  λ g,
    match c g with
    | (inr a, g') => (inr a, g')
    | (inl e, g') => h e g'
    end.

Notation "'let*' x := c 'in' k" := (bind c (λ x, k))
  (at level 10, x name, c at level 100, k at level 200).

Notation "c1 ;; c2" := (bind c1 (λ _, c2))
  (at level 100, c2 at level 200, right associativity).

(** A Python object where the handlers expect a [str]: a [str], or an
    object of another type, given by its [repr] and by what the [answer: str]
    field of the response model makes of it when [QueryResponse] is built
    (pydantic raises a [ValidationError] for [None]; for other types it
    raises or coerces, depending on its version). *)
Inductive PyValue :=
| PyStr (s : string)
| PyObject (repr : string) (as_str_field : PyExn + string).

(** Validation of a value for a field declared [str]. *)
Definition str_field (v : PyValue) : PyExn + string :=
  match v with
  | PyStr s => inr s
  | PyObject _ as_str_field => as_str_field
  end.

(** What [aquery] and [aquery_with_multimodal] hand back: a [str], a dict
    (with its [str()]), or an object of another type. *)
Inductive RagResult :=
| ResStr (s : string)
| ResDict (d : gmap string PyValue) (repr : string)
| ResOther (type_name : string).

(** The methods of the [RAGAnything] object the handlers call. *)
Record RAGAnything :=
  { process_document_complete : string → string → Await unit;
    aquery : string → string → Await RagResult;
    aquery_with_multimodal : string → string → Await RagResult }.

(** ** Document endpoints *)

(** [processing_status[doc_id].attr = v]: the subscript raises [KeyError]
    for an unknown id, otherwise the record in the map is mutated. The text
    of the [KeyError] is the [repr] of the key, written here for keys that
    [repr] prints as they are between single quotes (no quote, backslash or
    control character), as the identifiers [uuid4] draws are. *)
Definition setattr (doc_id : string) (f : DocumentStatus.t → DocumentStatus.t)
  : Await unit :=
  λ g,
    match processing_status g !! doc_id with
    | Some r =>
        (inr (),
         {| processing_status := <[doc_id := f r]> (processing_status g);
            fs := fs g;
            background_tasks := background_tasks g |})
    | None => (inl (mkExn KeyError ("'" +:+ doc_id +:+ "'")), g)
    end.

Definition do_mkdir (d : string) : Await unit :=
  λ g,
    (inr (),
     {| processing_status := processing_status g;
        fs := mkdir (fs g) d;
        background_tasks := background_tasks g |}).

(** [uuid4] is the string of the identifier [uuid.uuid4()] draws and
    [utcnow] the ISO text of the clock reading. [store_file] is the
    operating system on the three file-system calls of the handler,
    [doc_dir.mkdir(parents=True, exist_ok=True)], [open(file_path, "wb")]
    and [f.write(content)]: given the directory, the path of the file and
    the bytes, whether one of the calls raised, and the disk they leave.
    An exception there is not caught by the handler: the client is answered
    500 by the framework, no record is registered and no task is queued.
    The handler is taken to run from its first line to its return with no
    other handler run at its one suspension, the read of the upload. *)
Definition upload_document (cfg : Config) (rag_instance : option RAGAnything)
    (store_file :
       string → string → string → gmap string (gmap string string) →
       (PyExn + ()) * gmap string (gmap string string))
    (file : UploadFile.t) (uuid4 utcnow : string)
  : Globals → (HTTPException + UploadResponse.t) * Globals :=
  λ g,
    match rag_instance with
    | None => (inl (HTTP 503 "RAG not initialized"), g)
    | Some _ =>
        let doc_id := uuid4 in
        let doc_dir := path_join (documents_dir cfg) doc_id in
        let file_path := path_join doc_dir (UploadFile.filename file) in
        match store_file doc_dir file_path (UploadFile.content file) (fs g) with
        | (inl _, disk) =>
            (inl (HTTP 500 "Internal Server Error"),
             {| processing_status := processing_status g;
                fs := disk;
                background_tasks := background_tasks g |})
        | (inr _, disk) =>
            let tracked :=
              <[doc_id := DocumentStatus.mk doc_id (UploadFile.filename file)
                            "pending" 0.0%float None utcnow]>
                (processing_status g) in
            (inr (UploadResponse.mk doc_id "processing"),
             {| processing_status := tracked;
                fs := disk;
                background_tasks := background_tasks g ++ [(doc_id, file_path)] |})
        end
    end.

(** The call [rag_instance.process_document_complete(...)]: attribute
    lookup on [None] raises. *)
Definition call_process_document_complete (rag_instance : option RAGAnything)
    (file_path output_dir : string) : Await unit :=
  match rag_instance with
  | Some rag => process_document_complete rag file_path output_dir
  | None =>
      raise (mkExn AttributeError
               "'NoneType' object has no attribute 'process_document_complete'")
  end.

Definition process_document (cfg : Config) (rag_instance : option RAGAnything)
    (doc_id file_path : string) : Await unit :=
  try_except
    (setattr doc_id (DocumentStatus.set_status "processing");;
     setattr doc_id (DocumentStatus.set_progress 0.1%float);;
     let output_dir := path_join (working_dir cfg) doc_id in
     do_mkdir output_dir;;
     call_process_document_complete rag_instance file_path output_dir;;
     setattr doc_id (DocumentStatus.set_status "completed");;
     setattr doc_id (DocumentStatus.set_progress 1.0%float))
    (λ e,
       setattr doc_id (DocumentStatus.set_status "failed");;
       setattr doc_id (DocumentStatus.set_error (Some (exn_str e)))).

(** FastAPI runs the oldest task it holds; nothing to do when none is. *)
Definition run_background_task (cfg : Config) (rag_instance : option RAGAnything)
  : Await unit :=
  λ g,
    match background_tasks g with
    | [] => (inr (), g)
    | (doc_id, file_path) :: rest =>
        process_document cfg rag_instance doc_id file_path
          {| processing_status := processing_status g;
             fs := fs g;
             background_tasks := rest |}
    end.

Definition get_document_status (doc_id : string) (g : Globals)
  : HTTPException + DocumentStatus.t :=
  match processing_status g !! doc_id with
  | None => inl (HTTP 404 "Document not found")
  | Some r => inr r
  end.

(** The answer is the [status] of the JSON object returned. *)
Definition delete_document (cfg : Config) (doc_id : string)
  : Globals → (HTTPException + string) * Globals :=
  λ g,
    match processing_status g !! doc_id with
    | None => (inl (HTTP 404 "Document not found"), g)
    | Some _ =>
        let doc_dir := path_join (documents_dir cfg) doc_id in
        let fs1 := if path_exists (fs g) doc_dir then rmtree (fs g) doc_dir else fs g in
        let output_dir := path_join (working_dir cfg) doc_id in
        let fs2 := if path_exists fs1 output_dir then rmtree fs1 output_dir else fs1 in
        (inr "deleted",
         {| processing_status := delete doc_id (processing_status g);
            fs := fs2;
            background_tasks := background_tasks g |})
    end.

(** ** Query *)

(** [result if isinstance(result, str) else result.get("answer", str(result))] *)
Definition answer_of (result : RagResult) : PyExn + PyValue :=
  match result with
  | ResStr s => inr (PyStr s)
  | ResDict d repr => inr (default (PyStr repr) (d !! "answer"))
  | ResOther type_name =>
      inl (mkExn AttributeError
             ("'" +:+ type_name +:+ "' object has no attribute 'get'"))
  end.

(** [elapsed] is [(datetime.utcnow() - start_time).total_seconds()]. The
    response is a [QueryResponse], built inside the [try]: an answer its
    [str] field refuses is reported as any other exception. *)
Definition query (rag_instance : option RAGAnything) (request : QueryRequest.t)
    (elapsed : float) : Globals → (HTTPException + QueryResponse.t) * Globals :=
  λ g,
    match rag_instance with
    | None => (inl (HTTP 503 "RAG not initialized"), g)
    | Some rag =>
        let call :=
          if QueryRequest.multimodal request
          then aquery_with_multimodal rag (QueryRequest.query request)
                 (QueryRequest.mode request)
          else aquery rag (QueryRequest.query request) (QueryRequest.mode request) in
        match (let* result := call in
               let* value := (λ g', (answer_of result, g')) in
               let* answer := (λ g', (str_field value, g')) in
               ret (QueryResponse.mk answer [] (QueryRequest.mode request) elapsed)) g
        with
        | (inr response, g') => (inr response, g')
        | (inl e, g') => (inl (HTTP 500 (exn_str e)), g')
        end
    end.

Definition query_multimodal (rag_instance : option RAGAnything)
    (request : QueryRequest.t) (elapsed : float)
  : Globals → (HTTPException + QueryResponse.t) * Globals :=
  query rag_instance
    (QueryRequest.mk (QueryRequest.query request) (QueryRequest.mode request)
       true (QueryRequest.top_k request))
    elapsed.

(** ** The embeddings adapter *)

(** [range(start, stop, step)] for a positive step *)
Definition py_range (start stop step : nat) : list nat :=
  (λ k, start + k * step) <$> seq 0 ((stop - start + (step - 1)) / step).

(** [l[i:j]] for indices within [0..] *)
Definition py_slice {A} (l : list A) (i j : nat) : list A :=
  take (j - i) (drop i l).

Definition batch_size : nat := 32.

Section Embedding.

(** The state of the inference server behind [AsyncOpenAI], and
    [client.embeddings.create(model=..., input=batch)] projected to
    [[e.embedding for e in response.data]]. *)
Context {Client : Type}.
Variable embeddings_create :
  string → list string → Client → (PyExn + list (list float)) * Client.

(** The body of the [for i in range(0, len(texts), batch_size)] loop over
    the remaining start indices; [sent] collects the batches dispatched. *)
Fixpoint embedding_loop (cfg : Config) (texts : list string) (starts : list nat)
    (embeddings : list (list float)) (sent : list (list string)) (c : Client)
  : (PyExn + list (list float)) * list (list string) * Client :=
  match starts with
  | [] => (inr embeddings, sent, c)
  | i :: rest =>
      let batch := py_slice texts i (i + batch_size) in
      match embeddings_create (embedding_model cfg) batch c with
      | (inr response, c') =>
          embedding_loop cfg texts rest (embeddings ++ response)
            (sent ++ [batch]) c'
      | (inl e, c') => (inl e, sent ++ [batch], c')
      end
  end.

(** The [except Exception] clause logs and re-raises. *)
Definition embedding_func (cfg : Config) (texts : list string) (c : Client)
  : (PyExn + list (list float)) * list (list string) * Client :=
  embedding_loop cfg texts (py_range 0 (length texts) batch_size) [] [] c.

(** The batches the loop slices off [texts], in order. *)
Definition batches (texts : list string) : list (list string) :=
  (λ i, py_slice texts i (i + batch_size))
    <$> py_range 0 (length texts) batch_size.

(** From state [c] the endpoint answers the requests [bs], one after the
    other, with the responses [resps], and is left in state [c']. *)
Inductive answered (cfg : Config)
  : Client → list (list string) → list (list (list float)) → Client → Prop :=
| answered_nil c : answered cfg c [] [] c
| answered_cons c b response c1 bs resps c' :
    embeddings_create (embedding_model cfg) b c = (inr response, c1) →
    answered cfg c1 bs resps c' →
    answered cfg c (b :: bs) (response :: resps) c'.

End Embedding.

(** ** Vocabulary of the statements *)

(** The store in which [process_document] awaits the engine, for a document
    tracked as [r0] in [g]: the two assignments and the [mkdir] are done. *)
Definition at_await (cfg : Config) (doc_id : string) (r0 : DocumentStatus.t)
    (g : Globals) : Globals :=
  {| processing_status :=
       <[doc_id := DocumentStatus.set_progress 0.1%float
                     (DocumentStatus.set_status "processing" r0)]>
         (processing_status g);
     fs := mkdir (fs g) (path_join (working_dir cfg) doc_id);
     background_tasks := background_tasks g |}.

(** The store [g] with the record of [doc_id] replaced. *)
Definition with_record (doc_id : string) (r : DocumentStatus.t) (g : Globals)
  : Globals :=
  {| processing_status := <[doc_id := r]> (processing_status g);
     fs := fs g;
     background_tasks := background_tasks g |}.

(** Concrete engines, stores and clients for examples. *)
Module Sample.

(** An engine that ingests without touching the store and answers every
    query: plain text on the text path, a dict on the multimodal one. *)
Definition engine : RAGAnything :=
  {| process_document_complete := λ _ _ g, (inr (), g);
     aquery := λ q _ g, (inr (ResStr ("about " +:+ q)), g);
     aquery_with_multimodal :=
       λ q _ g, (inr (ResDict {["answer" := PyStr ("seen " +:+ q)]} "{...}"), g) |}.

(** An engine whose ingestion raises an exception with the text [msg]. *)
Definition failing_engine (msg : string) : RAGAnything :=
  {| process_document_complete := λ _ _ g, (inl (mkExn OtherError msg), g);
     aquery := λ _ _ g, (inl (mkExn OtherError msg), g);
     aquery_with_multimodal := λ _ _ g, (inl (mkExn OtherError msg), g) |}.

Definition empty : Globals :=
  {| processing_status := ∅; fs := ∅; background_tasks := [] |}.

(** A file system for examples: it creates the directory, files a name
    that is a single component directly in it, and refuses any other
    path. *)
Definition store_file (doc_dir file_path content : string)
    (disk : gmap string (gmap string string))
  : (PyExn + ()) * gmap string (gmap string string) :=
  let name := default "" (last (path_parts file_path)) in
  if bool_decide (file_path = doc_dir +:+ "/" +:+ name ∧ name ≠ "" ∧ name ≠ "..")
  then (inr (), <[doc_dir := <[name := content]> (default ∅ (disk !! doc_dir))]> disk)
  else (inl (mkExn OtherError "[Errno 2] No such file or directory"),
        mkdir disk doc_dir).

Definition report : UploadFile.t := UploadFile.mk "report.pdf" "%PDF-1.7".

Definition doc : DocumentStatus.t :=
  DocumentStatus.mk "d1" "report.pdf" "pending" 0.0%float None
    "2025-01-01T00:00:00".

(** A store tracking [doc], with its upload directory on disk. *)
Definition tracking : Globals :=
  {| processing_status := {["d1" := doc]};
     fs := {["/data/documents/d1" := {["report.pdf" := "%PDF-1.7"]}]};
     background_tasks := [("d1", "/data/documents/d1/report.pdf")] |}.

(** An embeddings endpoint that counts its requests and answers one
    one-value vector per text. *)
Definition embeddings_create (_ : string) (batch : list string) (n : nat)
  : (PyExn + list (list float)) * nat :=
  (inr ((λ _, [0.5%float]) <$> batch), S n).

End Sample.

End RagAnything.

(** * The RAG service: the remaining endpoints and the startup *)

Module RagService.
Import RagAnything.

Module HealthResponse.
Record t := mk
  { status : string;
    localai_connected : bool;
    qdrant_connected : bool;
    rag_initialized : bool;
    documents_processed : nat }.
End HealthResponse.

Module InsertRequest.
Record t := mk
  { content : string;
    metadata : option (gmap string string);
    doc_id : option string }.
End InsertRequest.

(** The JSON object [insert_content] returns. *)
Module InsertResponse.
Record t := mk { status : string; message : string }.
End InsertResponse.

(** [product_info] with its values as the texts the f-string prints. *)
Module ProductAnalysisRequest.
Record t := mk
  { product_info : gmap string string;
    context_query : string }.
End ProductAnalysisRequest.

(** The plain dict [analyze_product] returns: the analysis is the value
    extracted from the result of the engine, as it is. *)
Module ProductAnalysis.
Record t := mk { analysis : PyValue; product_asin : option string }.
End ProductAnalysis.

(** ** Startup *)

(** [initialize_rag]: [imported] is the outcome of the import of
    [raganything], [constructed] that of building the configuration and
    the [RAGAnything] object. Returns the new value of the global
    [rag_instance]. *)
Definition initialize_rag (cfg : Config) (imported : PyExn + unit)
    (constructed : PyExn + RAGAnything) (rag_instance : option RAGAnything)
    (g : Globals) : option RAGAnything * Globals :=
  match rag_instance with
  | Some rag => (Some rag, g)
  | None =>
      match imported with
      | inl _ => (None, g)
      | inr _ =>
          let g1 :=
            {| processing_status := processing_status g;
               fs := mkdir (fs g) (working_dir cfg);
               background_tasks := background_tasks g |} in
          match constructed with
          | inl _ => (None, g1)
          | inr rag => (Some rag, g1)
          end
      end
  end.

(** ** Health *)

(** [s.replace(old, new)] for a non-empty [old]: left to right, the
    occurrences that do not overlap an earlier one. [skip] counts the
    characters of the current occurrence still to drop. *)
Fixpoint replace_from (old new : string) (skip : nat) (s : string) : string :=
  match s with
  | EmptyString => EmptyString
  | String c rest =>
      match skip with
      | S k => replace_from old new k rest
      | O =>
          if String.prefix old s
          then new +:+ replace_from old new (String.length old - 1) rest
          else String c (replace_from old new 0 rest)
      end
  end.

Definition str_replace (old new s : string) : string :=
  replace_from old new 0 s.

(** One probe: [resp.status_code == 200], and [False] when the request
    raised (the bare [except: pass]). *)
Definition probe (http_get : string → PyExn + Z) (url : string) : bool :=
  match http_get url with
  | inr code => bool_decide (code = 200%Z)
  | inl _ => false
  end.

(** [localai_get] and [qdrant_get] are the two [client.get] calls, as
    functions of the URL asked. *)
Definition health_check (cfg : Config) (rag_instance : option RAGAnything)
    (localai_get qdrant_get : string → PyExn + Z) (g : Globals)
  : HealthResponse.t :=
  let localai_ok :=
    probe localai_get (str_replace "/v1" "" (localai_url cfg) +:+ "/readyz") in
  let qdrant_ok := probe qdrant_get (qdrant_url cfg +:+ "/collections") in
  HealthResponse.mk
    match rag_instance with Some _ => "healthy" | None => "initializing" end
    localai_ok qdrant_ok
    (bool_decide (is_Some rag_instance))
    (size (processing_status g)).

(** ** Listing *)

(** [list(processing_status.values())]. The order of the dict (insertion
    order) is not modelled: the list is read up to permutation. *)
Definition list_documents (g : Globals) : list DocumentStatus.t :=
  (map_to_list (processing_status g)).*2.

(** ** Insert *)

(** [ainsert] is the method of that name of the [RAGAnything] object, with
    its arguments [content], [metadata], [doc_id]. *)
Definition insert_content (rag_instance : option RAGAnything)
    (ainsert : string → gmap string string → option string → Await unit)
    (request : InsertRequest.t)
  : Globals → (HTTPException + InsertResponse.t) * Globals :=
  λ g,
    match rag_instance with
    | None => (inl (HTTP 503 "RAG not initialized"), g)
    | Some _ =>
        match ainsert (InsertRequest.content request)
                (default ∅ (InsertRequest.metadata request))
                (InsertRequest.doc_id request) g with
        | (inr _, g') => (inr (InsertResponse.mk "ok" "Content inserted"), g')
        | (inl e, g') => (inl (HTTP 500 (exn_str e)), g')
        end
    end.

(** ** Product analysis *)

(** The line feed. *)
Definition nl : string :=
  String (Ascii.Ascii false true false true false false false false) EmptyString.

(** [product_info.get(key, 'N/A')] *)
Definition field (info : gmap string string) (key : string) : string :=
  default "N/A" (info !! key).

(** The f-string of [analyze_product], line by line. *)
Definition query_text (request : ProductAnalysisRequest.t) : string :=
  let info := ProductAnalysisRequest.product_info request in
  nl +:+ "    " +:+ ProductAnalysisRequest.context_query request +:+ nl
  +:+ nl
  +:+ "    Product Information:" +:+ nl
  +:+ "    - ASIN: " +:+ field info "asin" +:+ nl
  +:+ "    - Title: " +:+ field info "title" +:+ nl
  +:+ "    - Category: " +:+ field info "category" +:+ nl
  +:+ "    - Price US: " +:+ field info "price_us" +:+ nl
  +:+ "    - Price CA: " +:+ field info "price_ca" +:+ nl
  +:+ "    - BSR: " +:+ field info "bsr" +:+ nl
  +:+ nl
  +:+ "    Based on historical data and patterns, provide analysis." +:+ nl
  +:+ "    ".

Definition analyze_product (rag_instance : option RAGAnything)
    (request : ProductAnalysisRequest.t)
  : Globals → (HTTPException + ProductAnalysis.t) * Globals :=
  λ g,
    match rag_instance with
    | None => (inl (HTTP 503 "RAG not initialized"), g)
    | Some rag =>
        match (let* result := aquery rag (query_text request) "hybrid" in
               let* value := (λ g', (answer_of result, g')) in
               ret (ProductAnalysis.mk value
                      (ProductAnalysisRequest.product_info request !! "asin"))) g
        with
        | (inr response, g') => (inr response, g')
        | (inl e, g') => (inl (HTTP 500 (exn_str e)), g')
        end
    end.

(** ** Sequences of requests *)

(** The requests that can change the store, with the values the handler
    draws from outside (identifier, clock). *)
Inductive Request :=
| Upload (file : UploadFile.t) (uuid4 utcnow : string)
| RunTask
| Delete (doc_id : string)
| Query (request : QueryRequest.t) (elapsed : float)
| Insert (request : InsertRequest.t)
| Analyze (request : ProductAnalysisRequest.t).

(** The store after one request is handled. *)
Definition handle (cfg : Config) (rag_instance : option RAGAnything)
    (ainsert : string → gmap string string → option string → Await unit)
    (store_file :
       string → string → string → gmap string (gmap string string) →
       (PyExn + ()) * gmap string (gmap string string))
    (req : Request) (g : Globals) : Globals :=
  match req with
  | Upload file uuid4 utcnow =>
      (upload_document cfg rag_instance store_file file uuid4 utcnow g).2
  | RunTask => (run_background_task cfg rag_instance g).2
  | Delete doc_id => (delete_document cfg doc_id g).2
  | Query request elapsed => (query rag_instance request elapsed g).2
  | Insert request => (insert_content rag_instance ainsert request g).2
  | Analyze request => (analyze_product rag_instance request g).2
  end.

Definition serve (cfg : Config) (rag_instance : option RAGAnything)
    (ainsert : string → gmap string string → option string → Await unit)
    (store_file :
       string → string → string → gmap string (gmap string string) →
       (PyExn + ()) * gmap string (gmap string string))
    (reqs : list Request) (g : Globals) : Globals :=
  foldl (λ g req, handle cfg rag_instance ainsert store_file req g) g reqs.

(** ** Vocabulary of the statements *)

(** What the handlers keep true of the record stored under [id]. *)
Definition record_ok (id : string) (r : DocumentStatus.t) : Prop :=
  DocumentStatus.document_id r = id ∧
  DocumentStatus.status r ∈ ["pending"; "processing"; "completed"; "failed"] ∧
  (DocumentStatus.status r = "pending" →
   DocumentStatus.progress r = 0.0%float ∧ DocumentStatus.error r = None) ∧
  (DocumentStatus.status r = "processing" →
   DocumentStatus.progress r = 0.1%float) ∧
  (DocumentStatus.status r = "completed" →
   DocumentStatus.progress r = 1.0%float) ∧
  (DocumentStatus.status r = "failed" → is_Some (DocumentStatus.error r)).

Definition tracker_ok (g : Globals) : Prop :=
  map_Forall record_ok (processing_status g).

(** Every awaited call into the engine resumes in a store where [P] holds
    if it was suspended in one. *)
Definition engine_keeps (P : Globals → Prop) (rag : RAGAnything)
    (ainsert : string → gmap string string → option string → Await unit)
  : Prop :=
  (∀ a b g, P g → P (process_document_complete rag a b g).2) ∧
  (∀ a b g, P g → P (aquery rag a b g).2) ∧
  (∀ a b g, P g → P (aquery_with_multimodal rag a b g).2) ∧
  (∀ a b c g, P g → P (ainsert a b c g).2).

(** ** Flags read from the environment (config.py) *)

(** [str.lower()] on the ASCII letters; other bytes are left as they are,
    which is enough to compare the result with an ASCII word. *)
Definition ascii_lower (c : Ascii.ascii) : Ascii.ascii :=
  let n := Ascii.nat_of_ascii c in
  if (65 <=? n) && (n <=? 90) then Ascii.ascii_of_nat (n + 32) else c.

Fixpoint lower (s : string) : string :=
  match s with
  | EmptyString => EmptyString
  | String c rest => String (ascii_lower c) (lower rest)
  end.

(** [os.getenv(name, dflt).lower() == "true"], for the value [value] of
    the variable in the environment ([None] when it is not set). *)
Definition env_flag (value : option string) (dflt : string) : bool :=
  bool_decide (lower (default dflt value) = "true").

(** The sixteen spellings of the word true, by letter case. *)
Definition true_spellings : list string :=
  ["true"; "truE"; "trUe"; "trUE"; "tRue"; "tRuE"; "tRUe"; "tRUE";
   "True"; "TruE"; "TrUe"; "TrUE"; "TRue"; "TRuE"; "TRUe"; "TRUE"].

(** [old in s] *)
Fixpoint occurs (old s : string) : bool :=
  String.prefix old s ||
  match s with
  | EmptyString => false
  | String _ rest => occurs old rest
  end.

(** An embeddings endpoint for examples that answers its first request and
    refuses the second. *)
Definition flaky_embeddings_create (_ : string) (batch : list string) (n : nat)
  : (PyExn + list (list float)) * nat :=
  if decide (n = 1) then (inl (mkExn OtherError "connection reset"), S n)
  else (inr ((λ _, [0.5%float]) <$> batch), S n).

(** An [ainsert] that succeeds and leaves the store alone, for examples. *)
Definition sample_ainsert (_ : string) (_ : gmap string string)
    (_ : option string) : Await unit :=
  λ g, (inr (), g).

End RagService.

(** * The chat adapters of the RAG service *)

Module RagAdapters.
Import RagAnything.

(** The keyword arguments the adapters read; any other is ignored. *)
Record Kwargs := { temperature : option float; max_tokens : option Z }.

(** One part of a multi-part message content. *)
Inductive Part :=
| TextPart (text : string)
| ImageUrlPart (url : string).

(** The [content] of a chat message: a string, or a list of parts. *)
Inductive Content :=
| Plain (text : string)
| Parts (parts : list Part).

Record Message := { role : string; content : Content }.

(** The arguments of [client.chat.completions.create]. *)
Record ChatRequest :=
  { chat_model : string;
    messages : list Message;
    chat_temperature : option float;
    chat_max_tokens : Z }.

Section Chat.

(** The inference server behind [AsyncOpenAI], and
    [client.chat.completions.create] projected to the message contents of
    [response.choices], in order. *)
Context {Client : Type}.
Variable chat_create : ChatRequest → Client → (PyExn + list string) * Client.

(** [response.choices[0].message.content] *)
Definition first_choice (choices : list string) : PyExn + string :=
  match choices with
  | first :: _ => inr first
  | [] => inl (mkExn OtherError "list index out of range")
  end.

Definition llm_request (cfg : Config) (prompt : string) (kwargs : Kwargs)
  : ChatRequest :=
  {| chat_model := llm_model cfg;
     messages := [{| role := "user"; content := Plain prompt |}];
     chat_temperature := Some (default 0.7%float (temperature kwargs));
     chat_max_tokens := default 2048%Z (max_tokens kwargs) |}.

(** Returns the outcome, the requests sent and the state of the server.
    The [except] clause logs and re-raises. *)
Definition llm_model_func (cfg : Config) (prompt : string) (kwargs : Kwargs)
    (c : Client) : (PyExn + string) * list ChatRequest * Client :=
  let request := llm_request cfg prompt kwargs in
  match chat_create request c with
  | (inr choices, c') => (first_choice choices, [request], c')
  | (inl e, c') => (inl e, [request], c')
  end.

(** The messages of the vision request: the prompt alone when [images] is
    [None] or empty, otherwise a text part and one data URL per image. *)
Definition vision_messages (prompt : string) (images : option (list string))
  : list Message :=
  match images with
  | Some (img :: imgs) =>
      [{| role := "user";
          content :=
            Parts (TextPart prompt ::
                   ((λ i, ImageUrlPart ("data:image/jpeg;base64," +:+ i))
                      <$> img :: imgs)) |}]
  | _ => [{| role := "user"; content := Plain prompt |}]
  end.

Definition vision_request (cfg : Config) (prompt : string)
    (images : option (list string)) (kwargs : Kwargs) : ChatRequest :=
  {| chat_model := vision_model cfg;
     messages := vision_messages prompt images;
     chat_temperature := None;
     chat_max_tokens := default 1024%Z (max_tokens kwargs) |}.

(** On any exception of the vision request, the text-only adapter is
    called with the same prompt and keyword arguments. *)
Definition vision_model_func (cfg : Config) (prompt : string)
    (images : option (list string)) (kwargs : Kwargs) (c : Client)
  : (PyExn + string) * list ChatRequest * Client :=
  let request := vision_request cfg prompt images kwargs in
  let fallback (c' : Client) :=
    let '(outcome, sent, c'') := llm_model_func cfg prompt kwargs c' in
    (outcome, request :: sent, c'') in
  match chat_create request c with
  | (inr choices, c') =>
      match first_choice choices with
      | inr answer => (inr answer, [request], c')
      | inl _ => fallback c'
      end
  | (inl _, c') => fallback c'
  end.

End Chat.

(** A server for examples: it counts its requests, refuses the vision
    model and answers the others with the name of the model asked. *)
Definition sample_chat (request : ChatRequest) (n : nat)
  : (PyExn + list string) * nat :=
  if decide (chat_model request = "llava")
  then (inl (mkExn OtherError "model not found"), S n)
  else (inr ["from " +:+ chat_model request], S n).

End RagAdapters.

(** * Properties of the visual embedding service *)

Module ColQwen2Facts.
Import ColQwen2.

Section Facts.

Context {Image Model Processor : Type}.
Variable b64_open : string → PyExn + Image.
Variable forward : Model → Processor → Image → PyExn + list float.
Variable MODEL_NAME : string.

Local Abbreviation Globals := (@Globals Model Processor).
Local Abbreviation embed := (embed b64_open forward).
Local Abbreviation embed_loop := (embed_loop b64_open forward).
Local Abbreviation embed_batch := (embed_batch b64_open forward).
Local Abbreviation health_check := (health_check MODEL_NAME).
Local Abbreviation load_model := (@load_model Model Processor).
Local Abbreviation unset := (@unset Model Processor).
Local Abbreviation embeds := (embeds b64_open forward).
Local Abbreviation calls_of := (calls_of b64_open).

(** The health check reports the model as loaded exactly when both
    handles are present. *)
Lemma model_loaded_iff (g : Globals) cuda :
  model_loaded (health_check g cuda) = false ↔
  model g = None ∨ processor g = None.
Proof.
  unfold health_check; simpl.
  destruct (model g), (processor g); simpl; split; intros H;
    try done; try (by left); try (by right).
  all: by destruct H.
Qed.

(** Without a model handle both endpoints answer 503 and call nothing. *)
Lemma embed_unloaded (g : Globals) request log :
  model g = None →
  embed g request log = (inl (HTTP 503 "Model not loaded"), log).
Proof. intros Hm. unfold ColQwen2.embed. by rewrite Hm. Qed.

Lemma embed_batch_unloaded (g : Globals) request log :
  model g = None →
  embed_batch g request log = (inl (HTTP 503 "Model not loaded"), log).
Proof. intros Hm. unfold ColQwen2.embed_batch. by rewrite Hm. Qed.

(** One round of the loop on an image that decodes and embeds. *)
Lemma embed_loop_cons (g : Globals) m p s v rest acc log :
  model g = Some m → processor g = Some p → embeds m p s v →
  embed_loop g (s :: rest) acc log =
  embed_loop g rest (acc ++ [v]) (log ++ calls_of s).
Proof.
  intros Hm Hp (img & Hd & Hf).
  cbn [ColQwen2.embed_loop]. unfold bind at 1, decode_image. rewrite Hd.
  unfold bind at 1, embed_image. rewrite Hm, Hp, Hf.
  unfold ColQwen2.calls_of. rewrite Hd. by rewrite <- app_assoc.
Qed.

Lemma embed_loop_all (g : Globals) m p imgs vecs acc log :
  model g = Some m → processor g = Some p →
  Forall2 (embeds m p) imgs vecs →
  embed_loop g imgs acc log =
  (inr (acc ++ vecs), log ++ concat (calls_of <$> imgs)).
Proof.
  intros Hm Hp HF. revert acc log.
  induction HF as [|s v imgs vecs Hs _ IH]; intros acc log.
  - cbn. by rewrite !app_nil_r.
  - rewrite (embed_loop_cons g m p s v) by done.
    rewrite IH. cbn [fmap list_fmap concat].
    by rewrite <- !app_assoc.
Qed.

Lemma embed_loop_invalid (g : Globals) m p pre bad rest vecs e acc log :
  model g = Some m → processor g = Some p →
  Forall2 (embeds m p) pre vecs →
  b64_open bad = inl e →
  embed_loop g (pre ++ bad :: rest) acc log =
  (inl (mkExn ValueError ("Invalid image data: " +:+ exn_str e)),
   log ++ concat (calls_of <$> pre) ++ [Decode bad]).
Proof.
  intros Hm Hp HF Hbad. revert acc log.
  induction HF as [|s v pre vecs Hs _ IH]; intros acc log.
  - cbn. unfold bind, decode_image. by rewrite Hbad.
  - rewrite <- app_comm_cons.
    rewrite (embed_loop_cons g m p s v) by done.
    rewrite IH. cbn [fmap list_fmap concat].
    by rewrite <- !app_assoc.
Qed.

(** C1 (as amended). Whatever the batch, [embed_batch] answers 503 when the
    model handle is absent. With the model and the processor loaded: a batch
    of N images that all decode and that the model embeds yields exactly
    those N vectors, in input order, with [count = N]; a batch whose first
    undecodable image comes after images that decode and embed fails with
    HTTP 400, carries no vectors, and makes no call for any image after the
    undecodable one. *)
Theorem embed_batch_outcomes (g : Globals) (log : list Call) :
  (model g = None →
   ∀ request,
     embed_batch g request log = (inl (HTTP 503 "Model not loaded"), log)) ∧
  (∀ m p, model g = Some m → processor g = Some p →
   ∀ imgs vecs, Forall2 (embeds m p) imgs vecs →
     embed_batch g {| images := imgs |} log =
     (inr {| embeddings := vecs;
             count := length imgs;
             batch_dim := match vecs with e0 :: _ => length e0 | [] => 0 end |},
      log ++ concat (calls_of <$> imgs))) ∧
  (∀ m p, model g = Some m → processor g = Some p →
   ∀ pre bad rest vecs e,
     Forall2 (embeds m p) pre vecs → b64_open bad = inl e →
     embed_batch g {| images := pre ++ bad :: rest |} log =
     (inl (HTTP 400 ("Invalid image data: " +:+ exn_str e)),
      log ++ concat (calls_of <$> pre) ++ [Decode bad])).
Proof.
  split; [|split].
  - intros Hm request. by apply embed_batch_unloaded.
  - intros m p Hm Hp imgs vecs HF.
    unfold ColQwen2.embed_batch. rewrite Hm.
    unfold try_http, bind. cbn [images].
    rewrite (embed_loop_all g m p imgs vecs) by done.
    cbn. by rewrite (Forall2_length _ _ _ HF).
  - intros m p Hm Hp pre bad rest vecs e HF Hbad.
    unfold ColQwen2.embed_batch. rewrite Hm.
    unfold try_http, bind. cbn [images].
    by rewrite (embed_loop_invalid g m p pre bad rest vecs e).
Qed.

(** C2 (the code departs from it). When [load_model] obtains the model but
    fails on the processor, the service starts with the model handle set
    and the processor handle absent: the health check reports
    [model_loaded = false], yet [embed] and [embed_batch] on a decodable
    image answer 500. The guard of the endpoints tests the model handle
    only, and the [RuntimeError] of [embed_image] reaches the generic
    [except]. *)
Theorem embed_processor_missing_500 (m : Model) (e : PyExn) (cuda : bool)
    (evaluated : PyExn + unit) (s : string) (img : Image) (log : list Call) :
  b64_open s = inr img →
  let g := (load_model (inr ()) cuda (inr m) (inl e) evaluated unset).2 in
  model g = Some m ∧ processor g = None ∧
  model_loaded (health_check g cuda) = false ∧
  embed g {| image := s |} log =
    (inl (HTTP 500 "Model not loaded"), log ++ [Decode s]) ∧
  embed_batch g {| images := [s] |} log =
    (inl (HTTP 500 "Model not loaded"), log ++ [Decode s]).
Proof.
  intros Hd g. do 3 (split; [done|]).
  unfold ColQwen2.embed, ColQwen2.embed_batch, try_http, bind; cbn.
  unfold bind, decode_image. rewrite Hd. by cbn.
Qed.

(** C9. On the empty list, with the model handle present, [embed_batch]
    returns [embeddings = []], [count = 0], [dim = 0]: the loop body never
    runs, no image is decoded or embedded, the [dim] expression takes its
    [else] branch, and whether the processor is loaded does not matter. *)
Theorem embed_batch_empty (g : Globals) (m : Model) (log : list Call) :
  model g = Some m →
  embed_batch g {| images := [] |} log =
  (inr {| embeddings := []; count := 0; batch_dim := 0 |}, log).
Proof.
  intros Hm. unfold ColQwen2.embed_batch. rewrite Hm.
  unfold try_http, bind. cbn [images ColQwen2.embed_loop].
  reflexivity.
Qed.

End Facts.

(** C1 as stated fails: with no model loaded, a batch of one decodable
    image is answered 503, not one vector, and a batch holding an
    undecodable image is answered 503, not 400. *)
Lemma embed_batch_as_stated_fails :
  ¬ (∀ (g : @Globals unit unit) (imgs : list string) (log : list Call),
       (Forall (λ s, ∃ img, Sample.b64_open s = inr img) imgs →
        ∃ resp log',
          embed_batch Sample.b64_open Sample.forward g {| images := imgs |} log
          = (inr resp, log') ∧
          length (embeddings resp) = length imgs) ∧
       (Exists (λ s, ∃ e, Sample.b64_open s = inl e) imgs →
        ∃ d log',
          embed_batch Sample.b64_open Sample.forward g {| images := imgs |} log
          = (inl (HTTP 400 d), log'))).
Proof.
  intros H.
  destruct (H Sample.unloaded ["page"] []) as [H1 _].
  destruct H1 as (resp & log' & Heq & _).
  - repeat constructor. by exists "page".
  - discriminate Heq.
Qed.

Lemma embed_batch_outcomes_witness :
  embed_batch Sample.b64_open Sample.forward Sample.unloaded
    {| images := ["page"] |} [] = (inl (HTTP 503 "Model not loaded"), []) ∧
  embed_batch Sample.b64_open Sample.forward Sample.loaded
    {| images := ["p1"; "p2"] |} [] =
    (inr {| embeddings := [[1.0%float; 0.5%float]; [1.0%float; 0.5%float]];
            count := 2; batch_dim := 2 |},
     [Decode "p1"; Forward "p1"; Decode "p2"; Forward "p2"]) ∧
  embed_batch Sample.b64_open Sample.forward Sample.loaded
    {| images := ["p1"; ""; "p3"] |} [] =
    (inl (HTTP 400 "Invalid image data: cannot identify image file"),
     [Decode "p1"; Forward "p1"; Decode ""]).
Proof.
  split; [|split].
  - destruct (embed_batch_outcomes Sample.b64_open Sample.forward
                Sample.unloaded []) as (H & _ & _).
    apply H. reflexivity.
  - destruct (embed_batch_outcomes Sample.b64_open Sample.forward
                Sample.loaded []) as (_ & H & _).
    apply (H () () eq_refl eq_refl ["p1"; "p2"]
             [[1.0%float; 0.5%float]; [1.0%float; 0.5%float]]).
    repeat constructor.
    + exists "p1". split; reflexivity.
    + exists "p2". split; reflexivity.
  - destruct (embed_batch_outcomes Sample.b64_open Sample.forward
                Sample.loaded []) as (_ & _ & H).
    apply (H () () eq_refl eq_refl ["p1"] "" ["p3"] [[1.0%float; 0.5%float]]
             (mkExn OtherError "cannot identify image file")).
    + repeat constructor. exists "p1". split; reflexivity.
    + reflexivity.
Defined.

Lemma embed_batch_empty_witness :
  embed_batch Sample.b64_open Sample.forward Sample.no_processor
    {| images := [] |} [] =
  (inr {| embeddings := []; count := 0; batch_dim := 0 |}, []).
Proof.
  apply (embed_batch_empty Sample.b64_open Sample.forward
           Sample.no_processor () []).
  reflexivity.
Defined.

Lemma embed_processor_missing_500_witness :
  Sample.b64_open "page" = inr "page" ∧
  model_loaded (health_check "vidore/colqwen2-v1.0" Sample.no_processor false)
    = false ∧
  embed Sample.b64_open Sample.forward Sample.no_processor
    {| image := "page" |} [] =
    (inl (HTTP 500 "Model not loaded"), [Decode "page"]) ∧
  embed_batch Sample.b64_open Sample.forward Sample.no_processor
    {| images := ["page"] |} [] =
    (inl (HTTP 500 "Model not loaded"), [Decode "page"]).
Proof.
  split; [reflexivity|].
  apply (embed_processor_missing_500 Sample.b64_open Sample.forward
           "vidore/colqwen2-v1.0" ()
           (mkExn OtherError "processor files not found") false (inr ())
           "page" "page" []).
  reflexivity.
Defined.

End ColQwen2Facts.

(** * Properties of the RAG service *)

Module RagAnythingFacts.
Import RagAnything.

(** ** Floats: the three progress values are distinct *)

Lemma float_neq (x y : float) :
  PrimFloat.eqb x x = true → PrimFloat.eqb x y = false → x ≠ y.
Proof. intros Hxx Hxy Heq. rewrite <- Heq in Hxy. congruence. Qed.

Lemma progress_started_neq_initial : 0.1%float ≠ 0.0%float.
Proof. by apply float_neq. Qed.

Lemma progress_started_neq_done : 0.1%float ≠ 1.0%float.
Proof. by apply float_neq. Qed.

(** ** The background task *)

Section Processing.

Variable cfg : Config.
Variable rag_instance : option RAGAnything.
Variables doc_id file_path : string.

Local Abbreviation output_dir := (path_join (working_dir cfg) doc_id).

(** [process_document] runs up to the call of the engine, and goes on from
    the outcome of the call and the store it resumes in. *)
Lemma process_document_unfold (g : Globals) (r0 : DocumentStatus.t) :
  processing_status g !! doc_id = Some r0 →
  process_document cfg rag_instance doc_id file_path g =
  match call_process_document_complete rag_instance file_path output_dir
          (at_await cfg doc_id r0 g) with
  | (inr _, g2) =>
      try_except
        (setattr doc_id (DocumentStatus.set_status "completed");;
         setattr doc_id (DocumentStatus.set_progress 1.0%float))
        (λ e,
           setattr doc_id (DocumentStatus.set_status "failed");;
           setattr doc_id (DocumentStatus.set_error (Some (exn_str e))))
        g2
  | (inl e, g2) =>
      (setattr doc_id (DocumentStatus.set_status "failed");;
       setattr doc_id (DocumentStatus.set_error (Some (exn_str e)))) g2
  end.
Proof.
  intros Hr0.
  unfold process_document, try_except.
  unfold bind at 1. unfold setattr at 1. rewrite Hr0.
  unfold bind at 1. unfold setattr at 1. cbn [processing_status].
  rewrite lookup_insert_eq.
  unfold bind at 1. unfold do_mkdir at 1. cbn [processing_status fs background_tasks].
  rewrite insert_insert_eq.
  unfold bind at 1. fold (at_await cfg doc_id r0 g).
  destruct (call_process_document_complete _ _ _ _) as [[e|[]] g2]; done.
Qed.

(** Two assignments in a row to a tracked record. *)
Lemma setattr_twice (f1 f2 : DocumentStatus.t → DocumentStatus.t)
    (g : Globals) (r : DocumentStatus.t) :
  processing_status g !! doc_id = Some r →
  (setattr doc_id f1;; setattr doc_id f2) g =
  (inr (), with_record doc_id (f2 (f1 r)) g).
Proof.
  intros Hr. unfold bind, setattr. rewrite Hr. cbn [processing_status].
  rewrite lookup_insert_eq. cbn [processing_status fs background_tasks].
  by rewrite insert_insert_eq.
Qed.

(** The whole run, from the outcome of the engine call and the record
    [r2] found on resumption. *)
Lemma process_document_resume (g g2 : Globals) (r0 r2 : DocumentStatus.t)
    (outcome : PyExn + unit) :
  processing_status g !! doc_id = Some r0 →
  call_process_document_complete rag_instance file_path output_dir
    (at_await cfg doc_id r0 g) = (outcome, g2) →
  processing_status g2 !! doc_id = Some r2 →
  process_document cfg rag_instance doc_id file_path g =
  (inr (),
   with_record doc_id
     match outcome with
     | inr _ =>
         DocumentStatus.set_progress 1.0%float
           (DocumentStatus.set_status "completed" r2)
     | inl e =>
         DocumentStatus.set_error (Some (exn_str e))
           (DocumentStatus.set_status "failed" r2)
     end g2).
Proof.
  intros Hr0 Hcall Hr2.
  rewrite (process_document_unfold g r0 Hr0), Hcall.
  destruct outcome as [e|u].
  - by apply setattr_twice.
  - unfold try_except. by rewrite (setattr_twice _ _ g2 r2 Hr2).
Qed.

(** C3 (as amended). For a tracked document the engine is called with the
    record already in status processing; when the call returns normally
    the record (still tracked on resumption) ends completed with progress
    1.0, and when it raises the record ends failed with its error field
    set to the text of the exception, whatever that text is. *)
Theorem process_document_outcomes (g g2 : Globals) (r0 r2 : DocumentStatus.t)
    (outcome : PyExn + unit) :
  processing_status g !! doc_id = Some r0 →
  call_process_document_complete rag_instance file_path output_dir
    (at_await cfg doc_id r0 g) = (outcome, g2) →
  processing_status g2 !! doc_id = Some r2 →
  DocumentStatus.status <$> processing_status (at_await cfg doc_id r0 g) !! doc_id
    = Some "processing" ∧
  ∃ r,
    process_document cfg rag_instance doc_id file_path g =
      (inr (), with_record doc_id r g2) ∧
    processing_status (with_record doc_id r g2) !! doc_id = Some r ∧
    match outcome with
    | inr _ =>
        DocumentStatus.status r = "completed" ∧
        DocumentStatus.progress r = 1.0%float
    | inl e =>
        DocumentStatus.status r = "failed" ∧
        DocumentStatus.error r = Some (exn_str e)
    end.
Proof.
  intros Hr0 Hcall Hr2. split.
  - cbn. by rewrite lookup_insert_eq.
  - eexists. split; [by eapply process_document_resume|].
    split; [apply lookup_insert_eq|]. by destruct outcome.
Qed.

(** C10. When the engine call raises, the handler writes the status and the
    error of the record it finds and nothing else: identifier, file name,
    progress and creation time are those of the record found. When nothing
    touched the record during the call, they are those of the upload and
    the progress is the 0.1 set at the start, which is neither 0.0 nor
    1.0. *)
Theorem process_document_failure_frame (g g2 : Globals)
    (r0 r2 : DocumentStatus.t) (e : PyExn) :
  processing_status g !! doc_id = Some r0 →
  call_process_document_complete rag_instance file_path output_dir
    (at_await cfg doc_id r0 g) = (inl e, g2) →
  processing_status g2 !! doc_id = Some r2 →
  ∃ r,
    process_document cfg rag_instance doc_id file_path g =
      (inr (), with_record doc_id r g2) ∧
    r = DocumentStatus.mk (DocumentStatus.document_id r2)
          (DocumentStatus.filename r2) "failed" (DocumentStatus.progress r2)
          (Some (exn_str e)) (DocumentStatus.created_at r2) ∧
    (processing_status g2 !! doc_id
       = processing_status (at_await cfg doc_id r0 g) !! doc_id →
     r = DocumentStatus.mk (DocumentStatus.document_id r0)
           (DocumentStatus.filename r0) "failed" 0.1%float
           (Some (exn_str e)) (DocumentStatus.created_at r0) ∧
     DocumentStatus.progress r ≠ 0.0%float ∧
     DocumentStatus.progress r ≠ 1.0%float).
Proof.
  intros Hr0 Hcall Hr2. eexists. split; [by eapply process_document_resume|].
  split; [done|]. intros Hsame.
  rewrite Hr2 in Hsame. cbn in Hsame. rewrite lookup_insert_eq in Hsame.
  injection Hsame as ->. cbn.
  split; [done|]. split.
  - apply progress_started_neq_initial.
  - apply progress_started_neq_done.
Qed.

End Processing.

(** C3 as stated fails: an exception with no text (a bare timeout, say)
    leaves the record failed with the empty string as its error. *)
Lemma process_document_error_can_be_empty :
  ¬ (∀ (rag : RAGAnything) (g g2 : Globals) (r0 : DocumentStatus.t) (e : PyExn),
       processing_status g !! "d1" = Some r0 →
       process_document_complete rag "/data/documents/d1/report.pdf"
         (path_join (working_dir config) "d1") (at_await config "d1" r0 g)
         = (inl e, g2) →
       is_Some (processing_status g2 !! "d1") →
       ∃ r msg,
         processing_status
           (process_document config (Some rag) "d1"
              "/data/documents/d1/report.pdf" g).2 !! "d1" = Some r ∧
         DocumentStatus.status r = "failed" ∧
         DocumentStatus.error r = Some msg ∧
         msg ≠ "").
Proof.
  intros H.
  destruct (H (Sample.failing_engine "") Sample.tracking
              (at_await config "d1" Sample.doc Sample.tracking) Sample.doc
              (mkExn OtherError ""))
    as (r & msg & Hr & _ & Herr & Hmsg).
  - apply lookup_singleton_eq.
  - reflexivity.
  - eexists. apply lookup_insert_eq.
  - rewrite (process_document_resume config (Some (Sample.failing_engine ""))
               "d1" _ Sample.tracking
               (at_await config "d1" Sample.doc Sample.tracking) Sample.doc
               (DocumentStatus.set_progress 0.1%float
                  (DocumentStatus.set_status "processing" Sample.doc))
               (inl (mkExn OtherError ""))) in Hr.
    + cbn in Hr. rewrite lookup_insert_eq in Hr. injection Hr as <-.
      cbn in Herr. injection Herr as <-. by apply Hmsg.
    + apply lookup_singleton_eq.
    + reflexivity.
    + apply lookup_insert_eq.
Qed.

Lemma process_document_outcomes_witness :
  ∃ r,
    process_document config (Some Sample.engine) "d1"
      "/data/documents/d1/report.pdf" Sample.tracking =
      (inr (), with_record "d1" r (at_await config "d1" Sample.doc Sample.tracking)) ∧
    DocumentStatus.status r = "completed" ∧
    DocumentStatus.progress r = 1.0%float.
Proof.
  destruct (process_document_outcomes config (Some Sample.engine) "d1"
              "/data/documents/d1/report.pdf" Sample.tracking
              (at_await config "d1" Sample.doc Sample.tracking)
              Sample.doc
              (DocumentStatus.set_progress 0.1%float
                 (DocumentStatus.set_status "processing" Sample.doc))
              (inr ()))
    as (_ & r & Hrun & _ & Hstatus & Hprogress).
  - apply lookup_singleton_eq.
  - reflexivity.
  - apply lookup_insert_eq.
  - exists r. by repeat split.
Defined.

Lemma process_document_failure_frame_witness :
  process_document config (Some (Sample.failing_engine "parse error")) "d1"
    "/data/documents/d1/report.pdf" Sample.tracking =
  (inr (),
   with_record "d1"
     (DocumentStatus.mk "d1" "report.pdf" "failed" 0.1%float
        (Some "parse error") "2025-01-01T00:00:00")
     (at_await config "d1" Sample.doc Sample.tracking)).
Proof.
  destruct (process_document_failure_frame config
              (Some (Sample.failing_engine "parse error")) "d1"
              "/data/documents/d1/report.pdf" Sample.tracking
              (at_await config "d1" Sample.doc Sample.tracking)
              Sample.doc
              (DocumentStatus.set_progress 0.1%float
                 (DocumentStatus.set_status "processing" Sample.doc))
              (mkExn OtherError "parse error"))
    as (r & Hrun & _ & Hsame).
  - apply lookup_singleton_eq.
  - reflexivity.
  - apply lookup_insert_eq.
  - destruct (Hsame eq_refl) as (-> & _). exact Hrun.
Defined.

(** A run from upload to completion, and one to failure. *)
Example upload_then_process_completes :
  let g1 :=
    (upload_document config (Some Sample.engine) Sample.store_file
       Sample.report "d1" "2025-01-01T00:00:00" Sample.empty).2 in
  get_document_status "d1" g1 = inr Sample.doc ∧
  get_document_status "d1"
    (run_background_task config (Some Sample.engine) g1).2 =
  inr (DocumentStatus.mk "d1" "report.pdf" "completed" 1.0%float None
         "2025-01-01T00:00:00").
Proof. split; vm_compute; reflexivity. Qed.

Example upload_then_process_fails :
  let g1 :=
    (upload_document config (Some (Sample.failing_engine "parse error"))
       Sample.store_file Sample.report "d1" "2025-01-01T00:00:00"
       Sample.empty).2 in
  get_document_status "d1"
    (run_background_task config (Some (Sample.failing_engine "parse error")) g1).2 =
  inr (DocumentStatus.mk "d1" "report.pdf" "failed" 0.1%float
         (Some "parse error") "2025-01-01T00:00:00").
Proof. vm_compute. reflexivity. Qed.

(** ** Paths *)

(** [Path(dir) / name] on the names a client can send: a plain name, a name
    with a directory part, a name that climbs out, an absolute name, an
    empty name; and on directories written with a trailing slash or with
    more than one leading slash. *)
Example path_join_examples :
  path_join "/data/documents" "d1" = "/data/documents/d1" ∧
  path_join "/data/documents/d1" "report.pdf" = "/data/documents/d1/report.pdf" ∧
  path_join "/data/documents/d1" "sub/./x.pdf" = "/data/documents/d1/sub/x.pdf" ∧
  path_join "/data/documents/d1" "../escape.pdf"
    = "/data/documents/d1/../escape.pdf" ∧
  path_join "/data/documents/d1" "/etc/passwd" = "/etc/passwd" ∧
  path_join "/data/documents/d1" "" = "/data/documents/d1" ∧
  path_join "/data/documents/" "d1" = "/data/documents/d1" ∧
  path_join "docs" "a" = "docs/a" ∧
  path_join "" "" = "." ∧
  path_join "//x" "a" = "//x/a" ∧
  path_join "///x" "a" = "/x/a" ∧
  path_join "a" "//etc//x/" = "//etc/x".
Proof. repeat split; vm_compute; reflexivity. Qed.

(** ** Upload *)

Section Upload.

Variable cfg : Config.
Variable store_file :
  string → string → string → gmap string (gmap string string) →
  (PyExn + ()) * gmap string (gmap string string).
Variable file : UploadFile.t.
Variables uuid4 utcnow : string.

Local Abbreviation doc_dir := (path_join (documents_dir cfg) uuid4).
Local Abbreviation file_path :=
  (path_join (path_join (documents_dir cfg) uuid4) (UploadFile.filename file)).
Local Abbreviation record :=
  (DocumentStatus.mk uuid4 (UploadFile.filename file) "pending" 0.0%float
     None utcnow).

(** The upload when the engine is set and the file was stored. *)
Lemma upload_document_stored (rag : RAGAnything) (g : Globals)
    (disk : gmap string (gmap string string)) :
  store_file doc_dir file_path (UploadFile.content file) (fs g) = (inr (), disk) →
  upload_document cfg (Some rag) store_file file uuid4 utcnow g =
  (inr (UploadResponse.mk uuid4 "processing"),
   {| processing_status := <[uuid4 := record]> (processing_status g);
      fs := disk;
      background_tasks := background_tasks g ++ [(uuid4, file_path)] |}).
Proof. intros Hstore. unfold upload_document. by rewrite Hstore. Qed.

(** A response means the engine is set and the file was stored. *)
Lemma upload_document_success_inv (rag_instance : option RAGAnything)
    (g g' : Globals) (resp : UploadResponse.t) :
  upload_document cfg rag_instance store_file file uuid4 utcnow g
    = (inr resp, g') →
  is_Some rag_instance ∧
  store_file doc_dir file_path (UploadFile.content file) (fs g)
    = (inr (), fs g') ∧
  resp = UploadResponse.mk uuid4 "processing" ∧
  processing_status g' = <[uuid4 := record]> (processing_status g) ∧
  background_tasks g' = background_tasks g ++ [(uuid4, file_path)].
Proof.
  unfold upload_document. destruct rag_instance as [rag|]; [|discriminate].
  destruct (store_file _ _ _ _) as [[e|[]] disk]; [discriminate|].
  intros [= <- <-]. by repeat split.
Qed.


(** C4. A successful upload returns the identifier drawn for it, with the
    record (that identifier, the file name, status pending, progress 0.0)
    in the status map and the processing task, for the path of the file as
    [pathlib] joins it, queued behind the earlier ones and not run: the
    answer is the same whatever the engine is, and a status query in the
    store returned answers the pending record. When the identifier drawn
    is new to the status map, the map has one record more and every record
    it had is still there, unchanged. *)
Theorem upload_document_registers_pending (rag_instance : option RAGAnything)
    (g g' : Globals) (resp : UploadResponse.t) :
  upload_document cfg rag_instance store_file file uuid4 utcnow g
    = (inr resp, g') →
  UploadResponse.document_id resp = uuid4 ∧
  processing_status g' = <[uuid4 := record]> (processing_status g) ∧
  background_tasks g' = background_tasks g ++ [(uuid4, file_path)] ∧
  (∀ rag',
     upload_document cfg (Some rag') store_file file uuid4 utcnow g
     = (inr resp, g')) ∧
  get_document_status uuid4 g' = inr record ∧
  DocumentStatus.status record = "pending" ∧
  DocumentStatus.progress record = 0.0%float ∧
  (processing_status g !! uuid4 = None →
   size (processing_status g') = S (size (processing_status g)) ∧
   ∀ id r, processing_status g !! id = Some r →
           processing_status g' !! id = Some r).
Proof.
  intros Hup.
  destruct (upload_document_success_inv _ _ _ _ Hup)
    as (Hrag & Hstore & -> & Hmap & Hqueue).
  split; [done|]. split; [done|]. split; [done|]. split.
  { intros rag'. rewrite (upload_document_stored rag' g (fs g') Hstore).
    f_equal. destruct g' as [m d q]. cbn in *. by subst. }
  split.
  { unfold get_document_status. by rewrite Hmap, lookup_insert_eq. }
  split; [done|]. split; [done|].
  intros Hfresh. rewrite Hmap. split.
  - by apply map_size_insert_None.
  - intros id r Hid. rewrite lookup_insert_ne; [done|]. congruence.
Qed.

(** C8. The body a successful upload returns says "processing", while the
    record registered for the same identifier says "pending": the two
    differ. *)
Theorem upload_document_response_status (rag_instance : option RAGAnything)
    (g g' : Globals) (resp : UploadResponse.t) :
  upload_document cfg rag_instance store_file file uuid4 utcnow g
    = (inr resp, g') →
  UploadResponse.status resp = "processing" ∧
  ∃ r,
    processing_status g' !! UploadResponse.document_id resp = Some r ∧
    DocumentStatus.status r = "pending" ∧
    UploadResponse.status resp ≠ DocumentStatus.status r.
Proof.
  intros Hup.
  destruct (upload_document_success_inv _ _ _ _ Hup)
    as (_ & _ & -> & Hmap & _).
  cbn. split; [done|].
  exists record. rewrite Hmap. split; [apply lookup_insert_eq|]. by cbn.
Qed.

End Upload.

(** The example file system stores a file with a plain name. *)
Lemma sample_store_report :
  Sample.store_file "/data/documents/d1" "/data/documents/d1/report.pdf"
    "%PDF-1.7" ∅ =
  (inr (), {["/data/documents/d1" := {["report.pdf" := "%PDF-1.7"]}]}).
Proof. vm_compute. reflexivity. Qed.

(** ** Delete *)

Lemma lookup_rmtree (disk : gmap string (gmap string string)) (d p : string) :
  rmtree disk d !! p = if under d p then None else disk !! p.
Proof.
  unfold rmtree. destruct (under d p) eqn:Hu.
  - apply map_lookup_filter_None. right. intros x _. cbn. congruence.
  - destruct (disk !! p) as [x|] eqn:Hp.
    + by apply map_lookup_filter_Some.
    + apply map_lookup_filter_None. by left.
Qed.

Lemma under_refl (d : string) : under d d = true.
Proof. unfold under. by rewrite bool_decide_eq_true_2. Qed.

Lemma append_cons (x : Ascii.ascii) (a c : string) :
  String x a +:+ c = String x (a +:+ c).
Proof. reflexivity. Qed.

Lemma append_assoc (a b c : string) : (a +:+ b) +:+ c = a +:+ b +:+ c.
Proof.
  induction a as [|x a IH]; [done|].
  by rewrite !append_cons, IH.
Qed.

Lemma prefix_app_iff (a b : string) :
  String.prefix a b = true ↔ ∃ c, b = a +:+ c.
Proof.
  revert b. induction a as [|x a IH]; intros b; cbn.
  - destruct b; (split; [intros _; by eexists | done]).
  - destruct b as [|y b]; cbn.
    + split; [done | by intros [c Hc]].
    + setoid_rewrite append_cons.
      destruct (Ascii.ascii_dec x y) as [->|Hne].
      * rewrite IH. split; intros [c Hc]; exists c; congruence.
      * split; [done | intros [c Hc]; congruence].
Qed.

Lemma under_iff (d p : string) :
  under d p = true ↔ p = d ∨ ∃ c, p = d +:+ "/" +:+ c.
Proof.
  unfold under. rewrite orb_true_iff, bool_decide_eq_true, prefix_app_iff.
  split; (intros [->|[c ->]]; [by left | right; exists c]).
  - by rewrite <- append_assoc.
  - by rewrite append_assoc.
Qed.

(** What lies below a directory lies below the directories above it. *)
Lemma under_trans (d1 d2 p : string) :
  under d1 d2 = true → under d2 p = true → under d1 p = true.
Proof.
  rewrite !under_iff.
  intros [->|[c ->]] [->|[c' ->]]; eauto.
  right. exists (c +:+ "/" +:+ c').
  by rewrite !append_assoc.
Qed.

(** The guarded removal [if d.exists(): shutil.rmtree(d)]. *)
Lemma lookup_guarded_rmtree (disk : gmap string (gmap string string))
    (d p : string) :
  (if path_exists disk d then rmtree disk d else disk) !! p =
  if path_exists disk d && under d p then None else disk !! p.
Proof. destruct (path_exists disk d); [apply lookup_rmtree | done]. Qed.

Lemma guarded_rmtree_gone (disk : gmap string (gmap string string)) (d : string) :
  (if path_exists disk d then rmtree disk d else disk) !! d = None.
Proof.
  rewrite lookup_guarded_rmtree, under_refl.
  unfold path_exists. case_bool_decide as Hex; cbn; [done|].
  by apply eq_None_not_Some.
Qed.

(** The disk after the two guarded removals of [delete_document]. *)
Lemma lookup_two_rmtree (disk : gmap string (gmap string string))
    (d1 d2 p : string) :
  let disk1 := if path_exists disk d1 then rmtree disk d1 else disk in
  (if path_exists disk1 d2 then rmtree disk1 d2 else disk1) !! p =
  if (path_exists disk d1 && under d1 p) || (path_exists disk d2 && under d2 p)
  then None else disk !! p.
Proof.
  intros disk1. rewrite lookup_guarded_rmtree. unfold disk1 at 2.
  rewrite lookup_guarded_rmtree.
  destruct (path_exists disk d1 && under d1 p) eqn:H1; cbn.
  { by destruct (path_exists disk1 d2 && under d2 p). }
  destruct (under d2 p) eqn:H2; rewrite ?andb_false_r; [|done].
  rewrite andb_true_r.
  destruct (path_exists disk d2) eqn:E2, (path_exists disk1 d2) eqn:E12;
    try done.
  - (* [d2] was removed with [d1], so [p] went with it *)
    exfalso.
    unfold path_exists in E2, E12.
    apply bool_decide_eq_true_1 in E2. apply bool_decide_eq_false_1 in E12.
    unfold disk1 in E12. rewrite lookup_guarded_rmtree in E12.
    destruct (path_exists disk d1) eqn:E1; cbn in E12, H1; [|done].
    destruct (under d1 d2) eqn:H12; [|done].
    by rewrite (under_trans d1 d2 p H12 H2) in H1.
  - (* [d2] cannot appear by removing [d1] *)
    exfalso.
    unfold path_exists in E2, E12.
    apply bool_decide_eq_false_1 in E2. apply bool_decide_eq_true_1 in E12.
    apply E2. unfold disk1 in E12. rewrite lookup_guarded_rmtree in E12.
    destruct (path_exists disk d1 && under d1 d2);
      [by destruct E12 as [x Hx] | done].
Qed.

(** C5. For an unknown identifier [delete_document] answers 404 and leaves
    the store as it is. For a known one it answers, the upload directory
    and the working-directory output are gone from the disk with all that
    was below them, every other path is as before, the record is out of
    the map, and a status query for the identifier answers 404. *)
Theorem delete_document_outcomes (cfg : Config) (doc_id : string) (g : Globals) :
  (processing_status g !! doc_id = None →
   delete_document cfg doc_id g = (inl (HTTP 404 "Document not found"), g)) ∧
  (is_Some (processing_status g !! doc_id) →
   let doc_dir := path_join (documents_dir cfg) doc_id in
   let output_dir := path_join (working_dir cfg) doc_id in
   ∃ g',
     delete_document cfg doc_id g = (inr "deleted", g') ∧
     fs g' !! doc_dir = None ∧
     fs g' !! output_dir = None ∧
     (∀ p, path_exists (fs g) doc_dir = true → under doc_dir p = true →
           fs g' !! p = None) ∧
     (∀ p, path_exists (fs g) output_dir = true → under output_dir p = true →
           fs g' !! p = None) ∧
     (∀ p, under doc_dir p = false → under output_dir p = false →
           fs g' !! p = fs g !! p) ∧
     processing_status g' = delete doc_id (processing_status g) ∧
     background_tasks g' = background_tasks g ∧
     get_document_status doc_id g' = inl (HTTP 404 "Document not found")).
Proof.
  split.
  - intros Hnone. unfold delete_document. by rewrite Hnone.
  - intros [r Hr] doc_dir output_dir. eexists.
    split; [unfold delete_document; by rewrite Hr|]. cbn.
    fold doc_dir output_dir.
    pose proof (lookup_two_rmtree (fs g) doc_dir output_dir) as Hdisk.
    cbn zeta in Hdisk.
    repeat split.
    + rewrite Hdisk, under_refl, andb_true_r.
      destruct (path_exists (fs g) doc_dir) eqn:Hex; [done|].
      unfold path_exists in Hex. apply bool_decide_eq_false_1 in Hex.
      apply eq_None_not_Some in Hex. rewrite Hex. by destruct (_ || _).
    + rewrite Hdisk, under_refl, andb_true_r.
      destruct (path_exists (fs g) output_dir) eqn:Hex;
        [by rewrite orb_true_r|].
      unfold path_exists in Hex. apply bool_decide_eq_false_1 in Hex.
      apply eq_None_not_Some in Hex. rewrite Hex. by destruct (_ || _).
    + intros p Hex Hu. by rewrite Hdisk, Hex, Hu.
    + intros p Hex Hu. by rewrite Hdisk, Hex, Hu, orb_true_r.
    + intros p Hu1 Hu2. by rewrite Hdisk, Hu1, Hu2, !andb_false_r.
    + unfold get_document_status. cbn. by rewrite lookup_delete_eq.
Qed.

(** ** Query *)

(** Every response [query] returns is built by the one constructor call. *)
Lemma query_success_inv (rag_instance : option RAGAnything)
    (request : QueryRequest.t) (elapsed : float) (g g' : Globals)
    (resp : QueryResponse.t) :
  query rag_instance request elapsed g = (inr resp, g') →
  ∃ answer,
    resp = QueryResponse.mk answer [] (QueryRequest.mode request) elapsed.
Proof.
  unfold query. destruct rag_instance as [rag|]; [|discriminate].
  unfold bind, ret.
  destruct (if QueryRequest.multimodal request then _ else _) as [[e|result] g1];
    [discriminate|].
  destruct (answer_of result) as [e|value]; [discriminate|].
  destruct (str_field value) as [e|answer]; [discriminate|].
  intros [= <- <-]. by exists answer.
Qed.

(** C6. Every response of [query], on the text path or the multimodal one,
    and every response of [query_multimodal], has the empty list as its
    sources. *)
Theorem query_sources_empty (rag_instance : option RAGAnything)
    (request : QueryRequest.t) (elapsed : float) (g g' : Globals)
    (resp : QueryResponse.t) :
  query rag_instance request elapsed g = (inr resp, g') ∨
  query_multimodal rag_instance request elapsed g = (inr resp, g') →
  QueryResponse.sources resp = [].
Proof.
  intros [Hq|Hq]; apply query_success_inv in Hq as [answer ->]; done.
Qed.

Lemma sample_upload :
  upload_document config (Some Sample.engine) Sample.store_file Sample.report
    "d1" "2025-01-01T00:00:00" Sample.empty =
  (inr (UploadResponse.mk "d1" "processing"),
   {| processing_status := <["d1" := Sample.doc]> ∅;
      fs := {["/data/documents/d1" := {["report.pdf" := "%PDF-1.7"]}]};
      background_tasks := [("d1", "/data/documents/d1/report.pdf")] |}).
Proof.
  apply (upload_document_stored config Sample.store_file Sample.report "d1"
           "2025-01-01T00:00:00" Sample.engine Sample.empty).
  exact sample_store_report.
Qed.

Lemma upload_document_registers_pending_witness :
  get_document_status "d1"
    {| processing_status := <["d1" := Sample.doc]> ∅;
       fs := {["/data/documents/d1" := {["report.pdf" := "%PDF-1.7"]}]};
       background_tasks := [("d1", "/data/documents/d1/report.pdf")] |}
  = inr Sample.doc.
Proof.
  pose proof (upload_document_registers_pending config Sample.store_file
                Sample.report "d1" "2025-01-01T00:00:00"
                (Some Sample.engine) Sample.empty _ _ sample_upload) as H.
  destruct H as (_ & _ & _ & _ & H & _). exact H.
Defined.

Lemma upload_document_response_status_witness :
  UploadResponse.status
    (UploadResponse.mk "d1" "processing") = "processing" ∧
  ∃ r,
    (<["d1" := Sample.doc]> ∅ : gmap string DocumentStatus.t) !! "d1" = Some r ∧
    DocumentStatus.status r = "pending".
Proof.
  destruct (upload_document_response_status config Sample.store_file
              Sample.report "d1" "2025-01-01T00:00:00"
              (Some Sample.engine) Sample.empty _ _ sample_upload)
    as (Hresp & r & Hr & Hpending & _).
  split; [exact Hresp|]. exists r. by split.
Defined.

Lemma delete_document_outcomes_witness :
  delete_document config "d1" Sample.empty
    = (inl (HTTP 404 "Document not found"), Sample.empty) ∧
  ∃ g',
    delete_document config "d1" Sample.tracking = (inr "deleted", g') ∧
    fs g' !! "/data/documents/d1" = None ∧
    get_document_status "d1" g' = inl (HTTP 404 "Document not found").
Proof.
  split.
  - apply (delete_document_outcomes config "d1" Sample.empty).
    apply lookup_empty.
  - destruct (delete_document_outcomes config "d1" Sample.tracking) as [_ H].
    destruct H as (g' & Hdel & Hdir & _ & _ & _ & _ & _ & _ & Hstatus).
    + exists Sample.doc. apply lookup_singleton_eq.
    + exists g'. by repeat split.
Defined.

Lemma query_sources_empty_witness :
  query (Some Sample.engine) (QueryRequest.mk "pricing" "hybrid" false 5)
    0.25%float Sample.empty
  = (inr (QueryResponse.mk "about pricing" [] "hybrid" 0.25%float), Sample.empty) ∧
  query_multimodal (Some Sample.engine)
    (QueryRequest.mk "pricing" "local" false 5) 0.5%float Sample.empty
  = (inr (QueryResponse.mk "seen pricing" [] "local" 0.5%float), Sample.empty) ∧
  QueryResponse.sources
    (QueryResponse.mk "seen pricing" [] "local" 0.5%float) = [].
Proof.
  split; [reflexivity|]. split; [reflexivity|].
  apply (query_sources_empty (Some Sample.engine)
           (QueryRequest.mk "pricing" "local" false 5) 0.5%float
           Sample.empty Sample.empty).
  right. reflexivity.
Defined.

(** ** The embeddings adapter *)

(** The start indices are the multiples of the batch size below the
    length, so the batches are the successive 32-element windows. *)
Lemma batches_windows (texts : list string) :
  batches texts =
  (λ k, take batch_size (drop (k * batch_size) texts))
    <$> seq 0 ((length texts + (batch_size - 1)) / batch_size).
Proof.
  unfold batches, py_range, py_slice.
  rewrite <- list_fmap_compose, Nat.sub_0_r.
  apply list_fmap_ext. intros _ k _. cbn [compose].
  f_equal. lia.
Qed.

Lemma concat_windows {A} (n m : nat) (l : list A) :
  length l ≤ m * n →
  concat ((λ k, take n (drop (k * n) l)) <$> seq 0 m) = l.
Proof.
  revert l. induction m as [|m IH]; intros l Hlen.
  - cbn. symmetry. apply nil_length_inv. lia.
  - cbn [seq fmap list_fmap concat]. rewrite Nat.mul_0_l, drop_0.
    rewrite <- fmap_S_seq, <- list_fmap_compose.
    rewrite (list_fmap_ext _ (λ k, take n (drop (k * n) (drop n l)))).
    + rewrite IH by (rewrite length_drop; lia). apply take_drop.
    + intros _ k _. cbn [compose]. by rewrite drop_drop.
Qed.

Lemma windows_lookup {A} (n m k : nat) (l : list A) (b : list A) :
  ((λ k, take n (drop (k * n) l)) <$> seq 0 m) !! k = Some b →
  k < m ∧ b = take n (drop (k * n) l).
Proof.
  rewrite list_lookup_fmap.
  destruct (seq 0 m !! k) as [j|] eqn:Hj; [|done].
  apply lookup_seq in Hj as [-> Hk]. cbn. intros [= <-]. done.
Qed.

(** The shape of the batches: they partition [texts], none is empty, none
    exceeds the batch size, and all but the last have exactly that size. *)
Lemma batches_shape (texts : list string) :
  concat (batches texts) = texts ∧
  length (batches texts) = (length texts + 31) / 32 ∧
  Forall (λ b, 0 < length b ≤ 32) (batches texts) ∧
  (∀ k b, batches texts !! k = Some b → S k < length (batches texts) →
          length b = 32).
Proof.
  rewrite batches_windows. change batch_size with 32. cbn [Nat.sub].
  assert (Hdiv : length texts ≤ (length texts + 31) / 32 * 32).
  { pose proof (Nat.div_mod_eq (length texts + 31) 32).
    pose proof (Nat.mod_upper_bound (length texts + 31) 32). lia. }
  assert (Hup : (length texts + 31) / 32 * 32 ≤ length texts + 31).
  { pose proof (Nat.div_mod_eq (length texts + 31) 32). lia. }
  split; [by apply concat_windows|].
  split; [by rewrite length_fmap, length_seq|].
  split.
  - apply Forall_lookup. intros k b Hb.
    apply windows_lookup in Hb as [Hk ->].
    rewrite length_take, length_drop. nia.
  - intros k b Hb Hlast. rewrite length_fmap, length_seq in Hlast.
    apply windows_lookup in Hb as [Hk ->].
    rewrite length_take, length_drop. nia.
Qed.

Section EmbeddingFacts.

Context {Client : Type}.
Variable embeddings_create :
  string → list string → Client → (PyExn + list (list float)) * Client.
Variable cfg : Config.

Local Abbreviation embedding_loop := (embedding_loop embeddings_create cfg).
Local Abbreviation embedding_func := (embedding_func embeddings_create cfg).
Local Abbreviation answered := (answered embeddings_create cfg).

Local Abbreviation slices texts starts :=
  ((λ i, py_slice texts i (i + batch_size)) <$> starts).

(** When every request is answered the loop returns the responses appended
    in order, having sent exactly the slices. *)
Lemma embedding_loop_answered (texts : list string) (starts : list nat)
    (acc : list (list float)) (sent : list (list string)) (c c' : Client)
    (resps : list (list (list float))) :
  answered c (slices texts starts) resps c' →
  embedding_loop texts starts acc sent c =
  (inr (acc ++ concat resps), sent ++ slices texts starts, c').
Proof.
  revert acc sent c resps.
  induction starts as [|i starts IH]; intros acc sent c resps Hans.
  - inversion Hans; subst. cbn. by rewrite !app_nil_r.
  - cbn [fmap list_fmap] in Hans.
    inversion Hans as [|? ? response c1 ? resps' ? Hcreate Hrest]; subst.
    cbn [RagAnything.embedding_loop]. rewrite Hcreate.
    rewrite (IH _ _ _ _ Hrest). cbn [fmap list_fmap concat].
    by rewrite <- !app_assoc.
Qed.

(** Conversely a normal return of the loop means every slice was sent and
    answered, in order. *)
Lemma embedding_loop_inv (texts : list string) (starts : list nat)
    (acc result : list (list float)) (sent sent' : list (list string))
    (c c' : Client) :
  embedding_loop texts starts acc sent c = (inr result, sent', c') →
  sent' = sent ++ slices texts starts ∧
  ∃ resps,
    answered c (slices texts starts) resps c' ∧ result = acc ++ concat resps.
Proof.
  revert acc sent c.
  induction starts as [|i starts IH]; intros acc sent c Hrun.
  - cbn in Hrun. injection Hrun as <- <- <-.
    split; [by rewrite app_nil_r|].
    exists []. split; [constructor | by rewrite app_nil_r].
  - cbn [RagAnything.embedding_loop] in Hrun.
    destruct (embeddings_create _ _ c) as [[e|response] c1] eqn:Hcreate;
      [discriminate|].
    apply IH in Hrun as (-> & resps & Hans & ->).
    split; [by rewrite <- app_assoc|].
    exists (response :: resps). split.
    + cbn [fmap list_fmap]. by econstructor.
    + cbn [concat]. by rewrite <- app_assoc.
Qed.

(** A relation that holds batch by batch holds on the whole, in order. *)
Lemma Forall2_concat_batches {A B} (R : A → B → Prop)
    (bs : list (list A)) (rs : list (list B)) :
  Forall2 (Forall2 R) bs rs → Forall2 R (concat bs) (concat rs).
Proof.
  induction 1 as [|b r bs rs Hbr _ IH]; cbn; [constructor|].
  by apply Forall2_app.
Qed.

Lemma length_concat_batches {A B} (bs : list (list A)) (rs : list (list B)) :
  Forall2 (λ b r, length r = length b) bs rs →
  length (concat rs) = length (concat bs).
Proof.
  induction 1 as [|b r bs rs Hbr _ IH]; cbn; [done|].
  rewrite !length_app. congruence.
Qed.

(** C7. The batches [embedding_func] slices off its input partition it into
    consecutive, non-empty groups of at most 32 texts, all of 32 but
    possibly the last. When the endpoint answers each of them, the function
    has sent exactly these batches, in order, and returns the responses
    appended in order: as many embeddings as texts when each response has
    one embedding per text, the i-th belonging to the i-th text. A normal
    return happens in no other way. *)
Theorem embedding_func_batches (texts : list string) (c : Client) :
  (concat (batches texts) = texts ∧
   Forall (λ b, 0 < length b ≤ 32) (batches texts) ∧
   (∀ k b, batches texts !! k = Some b → S k < length (batches texts) →
           length b = 32)) ∧
  (∀ resps c',
     answered c (batches texts) resps c' →
     embedding_func texts c = (inr (concat resps), batches texts, c') ∧
     (Forall2 (λ b r, length r = length b) (batches texts) resps →
      length (concat resps) = length texts) ∧
     (∀ R : string → list float → Prop,
        Forall2 (Forall2 R) (batches texts) resps →
        Forall2 R texts (concat resps))) ∧
  (∀ result sent c',
     embedding_func texts c = (inr result, sent, c') →
     sent = batches texts ∧
     ∃ resps, answered c (batches texts) resps c' ∧ result = concat resps).
Proof.
  destruct (batches_shape texts) as (Hconcat & _ & Hsize & Hfull).
  split; [done|]. split.
  - intros resps c' Hans. split; [|split].
    + unfold RagAnything.embedding_func.
      by rewrite (embedding_loop_answered texts _ [] [] c c' resps Hans).
    + intros Hlen. by rewrite (length_concat_batches _ _ Hlen), Hconcat.
    + intros R HR. rewrite <- Hconcat at 1. by apply Forall2_concat_batches.
  - intros result sent c' Hrun.
    by apply embedding_loop_inv in Hrun as (-> & resps & Hans & ->); eauto.
Qed.

End EmbeddingFacts.

Lemma embedding_func_batches_witness :
  embedding_func Sample.embeddings_create config (replicate 33 "t") 0 =
  (inr (replicate 33 [0.5%float]), [replicate 32 "t"; ["t"]], 2).
Proof.
  destruct (embedding_func_batches Sample.embeddings_create config
              (replicate 33 "t") 0) as (_ & H & _).
  destruct (H [replicate 32 [0.5%float]; [[0.5%float]]] 2) as [Hrun _].
  - apply (answered_cons _ _ 0 (replicate 32 "t") _ 1); [reflexivity|].
    apply (answered_cons _ _ 1 ["t"] _ 2); [reflexivity|].
    apply answered_nil.
  - exact Hrun.
Defined.

End RagAnythingFacts.

(** * Further properties of the visual embedding service *)

Module ColQwen2Extra.
Import ColQwen2.

Section Facts.

Context {Image Model Processor : Type}.
Variable b64_open : string → PyExn + Image.
Variable forward : Model → Processor → Image → PyExn + list float.
Variable MODEL_NAME : string.

Local Abbreviation Globals := (@Globals Model Processor).
Local Abbreviation embed := (embed b64_open forward).
Local Abbreviation embed_loop := (embed_loop b64_open forward).
Local Abbreviation embed_batch := (embed_batch b64_open forward).
Local Abbreviation health_check := (health_check MODEL_NAME).
Local Abbreviation embeds := (embeds b64_open forward).
Local Abbreviation calls_of := (calls_of b64_open).
Local Abbreviation load_model := (@load_model Model Processor).
Local Abbreviation unset := (@unset Model Processor).

(** What one pass through the body of the loop can do. *)
Lemma embed_loop_step (g : Globals) (s : string) (rest : list string)
    (acc : list (list float)) (log : list Call) :
  embed_loop g (s :: rest) acc log =
  match b64_open s with
  | inl e =>
      (inl (mkExn ValueError ("Invalid image data: " +:+ exn_str e)),
       log ++ [Decode s])
  | inr img =>
      match model g, processor g with
      | Some m, Some p =>
          match forward m p img with
          | inr v => embed_loop g rest (acc ++ [v]) (log ++ [Decode s; Forward img])
          | inl e => (inl e, log ++ [Decode s; Forward img])
          end
      | _, _ => (inl (mkExn RuntimeError "Model not loaded"), log ++ [Decode s])
      end
  end.
Proof.
  cbn [ColQwen2.embed_loop]. unfold bind at 1, decode_image.
  destruct (b64_open s) as [e|img]; [done|].
  unfold bind at 1, embed_image.
  destruct (model g) as [m|], (processor g) as [p|]; try done.
  rewrite <- app_assoc. cbn [app].
  by destruct (forward m p img).
Qed.

(** A loop that ends normally has decoded and embedded every image. *)
Lemma embed_loop_success_inv (g : Globals) (imgs : list string)
    (acc r : list (list float)) (log log' : list Call) :
  embed_loop g imgs acc log = (inr r, log') →
  ∃ vecs,
    r = acc ++ vecs ∧
    log' = log ++ concat (calls_of <$> imgs) ∧
    Forall2 (λ s v, ∃ m p, model g = Some m ∧ processor g = Some p ∧
                           embeds m p s v) imgs vecs.
Proof.
  revert acc log. induction imgs as [|s rest IH]; intros acc log Hrun.
  - cbn in Hrun. injection Hrun as <- <-. exists [].
    by rewrite !app_nil_r.
  - rewrite embed_loop_step in Hrun.
    destruct (b64_open s) as [e|img] eqn:Hd; [discriminate|].
    destruct (model g) as [m|] eqn:Hm; [|discriminate].
    destruct (processor g) as [p|] eqn:Hp; [|discriminate].
    destruct (forward m p img) as [e|v] eqn:Hf; [discriminate|].
    apply IH in Hrun as (vecs & -> & -> & HF).
    exists (v :: vecs). split; [by rewrite <- app_assoc|]. split.
    + cbn [fmap list_fmap concat]. unfold ColQwen2.calls_of at 2.
      rewrite Hd. by rewrite <- app_assoc.
    + constructor; [|done]. exists m, p. repeat split; try done.
      exists img. by split.
Qed.

(** A loop that raises does so with one of the two errors of the loop body
    or with what the model raised. *)
Lemma embed_loop_failure_inv (g : Globals) (imgs : list string)
    (acc : list (list float)) (log log' : list Call) (e : PyExn) :
  embed_loop g imgs acc log = (inl e, log') →
  exn_class e = ValueError ∨ http_of_exn e = HTTP 500 (exn_str e).
Proof.
  revert acc log. induction imgs as [|s rest IH]; intros acc log Hrun.
  - discriminate.
  - rewrite embed_loop_step in Hrun.
    destruct (b64_open s) as [e'|img]; [injection Hrun as <- _; by left|].
    destruct (model g) as [m|]; [|injection Hrun as <- _; by right].
    destruct (processor g) as [p|]; [|injection Hrun as <- _; by right].
    destruct (forward m p img) as [e'|v]; [|by eapply IH].
    injection Hrun as <- _. unfold http_of_exn.
    destruct (exn_class e'); (by left) || (by right).
Qed.

(** X1. With both handles loaded, [embed] answers a decodable image the
    model accepts with the vector of the model and its length as [dim],
    after one decode and one model call; an undecodable image with HTTP 400
    whose detail carries the decoder's message, the model not being
    called. *)
Theorem embed_outcomes (g : Globals) (m : Model) (p : Processor)
    (s : string) (log : list Call) :
  model g = Some m → processor g = Some p →
  (∀ v, embeds m p s v →
        embed g {| image := s |} log =
        (inr {| embedding := v; dim := length v |}, log ++ calls_of s)) ∧
  (∀ e, b64_open s = inl e →
        embed g {| image := s |} log =
        (inl (HTTP 400 ("Invalid image data: " +:+ exn_str e)),
         log ++ [Decode s])).
Proof.
  intros Hm Hp. unfold ColQwen2.embed. rewrite Hm.
  unfold try_http, bind, decode_image, embed_image. cbn [image].
  rewrite Hm, Hp. split.
  - intros v (img & Hd & Hf). unfold ColQwen2.calls_of.
    rewrite Hd, Hf. cbn. by rewrite <- app_assoc.
  - intros e Hd. by rewrite Hd.
Qed.

(** X2. Whenever [embed_batch] returns a response, [count] and the number
    of vectors both equal the number of images sent, every image of the
    batch decoded and was embedded by the model (the vectors are theirs,
    in order), [dim] is the length of the first vector or 0, and the calls
    made are one decode and one model call per image, in order. *)
Theorem embed_batch_success_inv (g : Globals) (request : EmbedBatchRequest)
    (log log' : list Call) (resp : EmbedBatchResponse) :
  embed_batch g request log = (inr resp, log') →
  count resp = length (images request) ∧
  length (embeddings resp) = length (images request) ∧
  batch_dim resp = default 0 (length <$> head (embeddings resp)) ∧
  log' = log ++ concat (calls_of <$> images request) ∧
  Forall2 (λ s v, ∃ m p, model g = Some m ∧ processor g = Some p ∧
                         embeds m p s v)
    (images request) (embeddings resp).
Proof.
  unfold ColQwen2.embed_batch.
  destruct (model g) as [m|] eqn:Hm; [|discriminate].
  unfold try_http, bind.
  destruct (embed_loop g (images request) [] log) as [[e|r] l] eqn:Hrun;
    [discriminate|].
  intros [= <- <-]. cbn.
  apply embed_loop_success_inv in Hrun as (vecs & -> & -> & HF). cbn.
  rewrite <- (Forall2_length _ _ _ HF). repeat split; try done.
  - by destruct vecs.
  - by rewrite Hm in HF.
Qed.

(** X3. An exception of the model call on a decodable image is classified
    by its class alone: a [ValueError] raised inside the model is answered
    HTTP 400, like an undecodable image, and any other exception HTTP 500;
    the detail is the text of the exception. *)
Theorem embed_model_failure (g : Globals) (m : Model) (p : Processor)
    (s : string) (img : Image) (e : PyExn) (log : list Call) :
  model g = Some m → processor g = Some p →
  b64_open s = inr img → forward m p img = inl e →
  embed g {| image := s |} log =
    (inl (HTTP match exn_class e with ValueError => 400 | _ => 500 end
            (exn_str e)),
     log ++ [Decode s; Forward img]) ∧
  embed_batch g {| images := [s] |} log =
    (inl (HTTP match exn_class e with ValueError => 400 | _ => 500 end
            (exn_str e)),
     log ++ [Decode s; Forward img]).
Proof.
  intros Hm Hp Hd Hf. split.
  - unfold ColQwen2.embed. rewrite Hm.
    unfold try_http, bind, decode_image, embed_image. cbn [image].
    rewrite Hd, Hm, Hp, Hf. rewrite <- app_assoc. cbn [app].
    unfold http_of_exn. by destruct (exn_class e).
  - unfold ColQwen2.embed_batch. rewrite Hm.
    unfold try_http. cbn [images]. unfold bind at 1.
    rewrite embed_loop_step, Hd, Hm, Hp, Hf.
    unfold http_of_exn. by destruct (exn_class e).
Qed.

(** X4. The errors of the two endpoints: the status code is 400, 500 or
    503; it is 503 exactly when the model handle is absent, and then no
    external call was made. *)
Theorem embed_error_codes (g : Globals) (log log' : list Call)
    (err : HTTPException) :
  (∃ request, embed g request log = (inl err, log')) ∨
  (∃ request, embed_batch g request log = (inl err, log')) →
  status_code err ∈ [400; 500; 503]%Z ∧
  (status_code err = 503%Z ↔ model g = None) ∧
  (model g = None → log' = log).
Proof.
  assert (Hcode : ∀ e : PyExn,
             status_code (http_of_exn e) ∈ [400; 500; 503]%Z ∧
             status_code (http_of_exn e) ≠ 503%Z).
  { intros e. unfold http_of_exn. rewrite !elem_of_cons.
    destruct (exn_class e); cbn; (split; [auto | lia]). }
  assert (H503 : (503 ∈ [400; 500; 503])%Z).
  { rewrite !elem_of_cons. auto. }
  intros [[request Hrun]|[request Hrun]].
  - unfold ColQwen2.embed in Hrun. destruct (model g) as [m|].
    + unfold try_http in Hrun.
      destruct (bind _ _ log) as [[e|r] l]; [|discriminate].
      destruct (Hcode e) as [Hin Hne].
      injection Hrun as Herr Hlog. rewrite <- Herr.
      split; [done|]. split; [|done]. by split.
    + injection Hrun as Herr Hlog. rewrite <- Herr. cbn.
      split; [done|]. by split.
  - unfold ColQwen2.embed_batch in Hrun. destruct (model g) as [m|].
    + unfold try_http in Hrun.
      destruct (bind _ _ log) as [[e|r] l]; [|discriminate].
      destruct (Hcode e) as [Hin Hne].
      injection Hrun as Herr Hlog. rewrite <- Herr.
      split; [done|]. split; [|done]. by split.
    + injection Hrun as Herr Hlog. rewrite <- Herr. cbn.
      split; [done|]. by split.
Qed.

(** X5. A batch of one image is the single-image endpoint: the two fail
    with the same error, or both succeed with the same vector and the same
    [dim], and they make the same external calls. *)
Theorem embed_batch_singleton (g : Globals) (s : string) (log : list Call) :
  embed_batch g {| images := [s] |} log =
  match embed g {| image := s |} log with
  | (inr r, log') =>
      (inr {| embeddings := [embedding r]; count := 1; batch_dim := dim r |},
       log')
  | (inl err, log') => (inl err, log')
  end.
Proof.
  unfold ColQwen2.embed, ColQwen2.embed_batch.
  destruct (model g) as [m|] eqn:Hm; [|done].
  unfold try_http. cbn [images].
  unfold bind at 1. rewrite embed_loop_step.
  unfold bind, decode_image, embed_image. cbn [image]. rewrite Hm.
  destruct (b64_open s) as [e|img]; [done|].
  destruct (processor g) as [p|]; [|done].
  rewrite <- app_assoc. cbn [app].
  by destruct (forward m p img) as [e|v].
Qed.

(** X6. Started from the unset globals, [load_model] returns true exactly
    when the import, the model, the processor and the switch of the model
    to evaluation mode all succeeded, while the health check afterwards
    reports [model_loaded] exactly when the import, the model and the
    processor succeeded. So a true return is always reported as loaded and
    healthy, but when only the switch to evaluation mode raised,
    [load_model] returns false and the health check still reports the
    model loaded and the status healthy. The device is reported as none
    exactly when the import failed. *)
Theorem load_model_health (imported : PyExn + unit) (cuda probe : bool)
    (weights : PyExn + Model) (proc : PyExn + Processor)
    (evaluated : PyExn + unit) :
  let '(ok, g) := load_model imported cuda weights proc evaluated unset in
  let h := health_check g probe in
  (ok = true ↔
   ∃ m p, imported = inr () ∧ weights = inr m ∧ proc = inr p ∧
          evaluated = inr ()) ∧
  (model_loaded h = true ↔
   ∃ m p, imported = inr () ∧ weights = inr m ∧ proc = inr p) ∧
  status h = (if model_loaded h then "healthy" else "degraded") ∧
  (ok = true → model_loaded h = true) ∧
  (∀ m p e,
     imported = inr () → weights = inr m → proc = inr p →
     evaluated = inl e →
     ok = false ∧ model_loaded h = true ∧ status h = "healthy") ∧
  (health_device h = "none" ↔ ∃ e, imported = inl e).
Proof.
  destruct imported as [e|[]]; cbn.
  { split; [|split; [|split; [|split; [|split]]]]; try done.
    - split; [done|]. by intros (? & ? & ? & ? & ? & ?).
    - split; [done|]. by intros (? & ? & ? & ? & ?).
    - split; [eauto|done]. }
  destruct weights as [e|m]; cbn.
  { split; [|split; [|split; [|split; [|split]]]]; try done.
    - split; [done|]. by intros (? & ? & ? & ? & ? & ?).
    - split; [done|]. by intros (? & ? & ? & ? & ?).
    - split; [by destruct cuda | by intros [? ?]]. }
  destruct proc as [e|p]; cbn.
  { split; [|split; [|split; [|split; [|split]]]]; try done.
    - split; [done|]. by intros (? & ? & ? & ? & ? & ?).
    - split; [done|]. by intros (? & ? & ? & ? & ?).
    - split; [by destruct cuda | by intros [? ?]]. }
  destruct evaluated as [e|[]]; cbn.
  - split; [|split; [|split; [|split; [|split]]]]; try done.
    + split; [done|]. by intros (? & ? & ? & ? & ? & ?).
    + split; [intros _; by exists m, p | done].
    + split; [by destruct cuda | by intros [? ?]].
  - split; [|split; [|split; [|split; [|split]]]]; try done.
    + split; [intros _; by exists m, p | done].
    + split; [intros _; by exists m, p | done].
    + split; [by destruct cuda | by intros [? ?]].
Qed.

End Facts.

Lemma embed_outcomes_witness :
  embed Sample.b64_open Sample.forward Sample.loaded {| image := "page" |} [] =
    (inr {| embedding := [1.0%float; 0.5%float]; dim := 2 |},
     [Decode "page"; Forward "page"]) ∧
  embed Sample.b64_open Sample.forward Sample.loaded {| image := "" |} [] =
    (inl (HTTP 400 "Invalid image data: cannot identify image file"),
     [Decode ""]).
Proof.
  split.
  - destruct (embed_outcomes Sample.b64_open Sample.forward Sample.loaded
                () () "page" [] eq_refl eq_refl) as [H _].
    apply (H [1.0%float; 0.5%float]). exists "page". by split.
  - destruct (embed_outcomes Sample.b64_open Sample.forward Sample.loaded
                () () "" [] eq_refl eq_refl) as [_ H].
    apply (H (mkExn OtherError "cannot identify image file")). reflexivity.
Defined.

Lemma embed_batch_success_inv_witness :
  count {| embeddings := [[1.0%float; 0.5%float]]; count := 1; batch_dim := 2 |}
    = length ["page"].
Proof.
  apply (embed_batch_success_inv Sample.b64_open Sample.forward Sample.loaded
           {| images := ["page"] |} [] [Decode "page"; Forward "page"]
           {| embeddings := [[1.0%float; 0.5%float]]; count := 1;
              batch_dim := 2 |}).
  reflexivity.
Defined.

Lemma embed_model_failure_witness :
  embed Sample.b64_open Sample.forward Sample.loaded {| image := "oom" |} [] =
    (inl (HTTP 500 "CUDA out of memory"), [Decode "oom"; Forward "oom"]).
Proof.
  apply (embed_model_failure Sample.b64_open Sample.forward Sample.loaded
           () () "oom" "oom" (mkExn RuntimeError "CUDA out of memory") []);
    reflexivity.
Defined.

Lemma embed_error_codes_witness :
  status_code (HTTP 503 "Model not loaded") ∈ [400; 500; 503]%Z.
Proof.
  apply (embed_error_codes Sample.b64_open Sample.forward Sample.unloaded
           [] [] (HTTP 503 "Model not loaded")).
  left. exists {| image := "page" |}. reflexivity.
Defined.

End ColQwen2Extra.

(** * Further properties of the RAG service *)

Module RagAnythingExtra.
Import RagAnything RagService RagAnythingFacts.

(** ** The background task, in full *)

Local Abbreviation key_error doc_id :=
  (mkExn KeyError ("'" +:+ doc_id +:+ "'")).

Lemma setattr_untracked (doc_id : string)
    (f1 f2 : DocumentStatus.t → DocumentStatus.t) (g : Globals) :
  processing_status g !! doc_id = None →
  (setattr doc_id f1;; setattr doc_id f2) g = (inl (key_error doc_id), g).
Proof. intros Hnone. unfold bind, setattr. by rewrite Hnone. Qed.

(** Every run of [process_document]: the identifier is unknown at the
    start, or unknown when the engine call resumes, or the record found
    then is rewritten according to the outcome of the call. *)
Lemma process_document_cases (cfg : Config) (rag_instance : option RAGAnything)
    (doc_id file_path : string) (g : Globals) :
  process_document cfg rag_instance doc_id file_path g =
  match processing_status g !! doc_id with
  | None => (inl (key_error doc_id), g)
  | Some r0 =>
      let '(outcome, g2) :=
        call_process_document_complete rag_instance file_path
          (path_join (working_dir cfg) doc_id) (at_await cfg doc_id r0 g) in
      match processing_status g2 !! doc_id with
      | None => (inl (key_error doc_id), g2)
      | Some r2 =>
          (inr (),
           with_record doc_id
             match outcome with
             | inr _ =>
                 DocumentStatus.set_progress 1.0%float
                   (DocumentStatus.set_status "completed" r2)
             | inl e =>
                 DocumentStatus.set_error (Some (exn_str e))
                   (DocumentStatus.set_status "failed" r2)
             end g2)
      end
  end.
Proof.
  destruct (processing_status g !! doc_id) as [r0|] eqn:Hr0.
  - destruct (call_process_document_complete _ _ _ _) as [outcome g2] eqn:Hcall.
    destruct (processing_status g2 !! doc_id) as [r2|] eqn:Hr2.
    + by eapply process_document_resume.
    + rewrite (process_document_unfold _ _ _ _ g r0 Hr0), Hcall.
      destruct outcome as [e|u].
      * by apply setattr_untracked.
      * unfold try_except. rewrite setattr_untracked by done.
        by apply setattr_untracked.
  - unfold process_document, try_except.
    unfold bind at 1. unfold setattr at 1. rewrite Hr0.
    by apply setattr_untracked.
Qed.

(** X7. For an identifier that is not tracked (the document was deleted
    before its task ran) [process_document] raises [KeyError] out of its
    own [except] clause, creates no record, leaves the store as it is and
    does not call the engine. *)
Theorem process_document_untracked (cfg : Config)
    (rag_instance : option RAGAnything) (doc_id file_path : string)
    (g : Globals) :
  processing_status g !! doc_id = None →
  process_document cfg rag_instance doc_id file_path g =
    (inl (mkExn KeyError ("'" +:+ doc_id +:+ "'")), g) ∧
  ∀ rag_instance',
    process_document cfg rag_instance' doc_id file_path g =
    process_document cfg rag_instance doc_id file_path g.
Proof.
  intros Hnone. split.
  - by rewrite process_document_cases, Hnone.
  - intros rag_instance'. by rewrite !process_document_cases, Hnone.
Qed.

(** X8. When the record is gone by the time the engine call resumes (the
    document was deleted during processing), [process_document] raises
    [KeyError] whatever the call returned or raised; the store is the one
    found on resumption, so the record is not created again and the
    exception of the engine, if any, is lost. *)
Theorem process_document_deleted_meanwhile (cfg : Config)
    (rag_instance : option RAGAnything) (doc_id file_path : string)
    (g g2 : Globals) (r0 : DocumentStatus.t) (outcome : PyExn + unit) :
  processing_status g !! doc_id = Some r0 →
  call_process_document_complete rag_instance file_path
    (path_join (working_dir cfg) doc_id) (at_await cfg doc_id r0 g)
    = (outcome, g2) →
  processing_status g2 !! doc_id = None →
  process_document cfg rag_instance doc_id file_path g =
    (inl (mkExn KeyError ("'" +:+ doc_id +:+ "'")), g2) ∧
  get_document_status doc_id
    (process_document cfg rag_instance doc_id file_path g).2
    = inl (HTTP 404 "Document not found").
Proof.
  intros Hr0 Hcall Hr2.
  rewrite process_document_cases, Hr0, Hcall, Hr2. split; [done|].
  unfold get_document_status. cbn. by rewrite Hr2.
Qed.

Lemma process_document_deleted_meanwhile_witness :
  process_document config
    (Some {| process_document_complete :=
               λ _ _ g,
                 (inr (),
                  {| processing_status := delete "d1" (processing_status g);
                     fs := fs g;
                     background_tasks := background_tasks g |});
             aquery := aquery Sample.engine;
             aquery_with_multimodal := aquery_with_multimodal Sample.engine |})
    "d1" "/data/documents/d1/report.pdf" Sample.tracking =
  (inl (mkExn KeyError "'d1'"),
   {| processing_status :=
        delete "d1"
          (processing_status (at_await config "d1" Sample.doc Sample.tracking));
      fs := fs (at_await config "d1" Sample.doc Sample.tracking);
      background_tasks := background_tasks Sample.tracking |}).
Proof.
  eapply (process_document_deleted_meanwhile config _ "d1"
            "/data/documents/d1/report.pdf" Sample.tracking _ Sample.doc
            (inr ())).
  - apply lookup_singleton_eq.
  - reflexivity.
  - apply lookup_delete_eq.
Defined.

(** ** What the tracker keeps *)

Lemma record_ok_pending (id filename utcnow : string) :
  record_ok id (DocumentStatus.mk id filename "pending" 0.0%float None utcnow).
Proof.
  unfold record_ok. cbn. rewrite !elem_of_cons. repeat split; auto; done.
Qed.

Lemma record_ok_processing (id : string) (r : DocumentStatus.t) :
  record_ok id r →
  record_ok id (DocumentStatus.set_progress 0.1%float
                  (DocumentStatus.set_status "processing" r)).
Proof.
  intros (Hid & _). unfold record_ok. cbn. rewrite !elem_of_cons.
  repeat split; auto; done.
Qed.

Lemma record_ok_completed (id : string) (r : DocumentStatus.t) :
  record_ok id r →
  record_ok id (DocumentStatus.set_progress 1.0%float
                  (DocumentStatus.set_status "completed" r)).
Proof.
  intros (Hid & _). unfold record_ok. cbn. rewrite !elem_of_cons.
  repeat split; auto; done.
Qed.

Lemma record_ok_failed (id text : string) (r : DocumentStatus.t) :
  record_ok id r →
  record_ok id (DocumentStatus.set_error (Some text)
                  (DocumentStatus.set_status "failed" r)).
Proof.
  intros (Hid & _). unfold record_ok. cbn. rewrite !elem_of_cons.
  repeat split; auto; done.
Qed.

Lemma tracker_ok_with_record (id : string) (r : DocumentStatus.t) (g : Globals) :
  record_ok id r → tracker_ok g → tracker_ok (with_record id r g).
Proof. intros Hr Hg. by apply map_Forall_insert_2. Qed.

Section Invariant.

Variable cfg : Config.
Variable rag_instance : option RAGAnything.
Variable ainsert : string → gmap string string → option string → Await unit.
Variable store_file :
  string → string → string → gmap string (gmap string string) →
  (PyExn + ()) * gmap string (gmap string string).
Hypothesis engine_ok :
  ∀ rag, rag_instance = Some rag → engine_keeps tracker_ok rag ainsert.

Lemma call_keeps_tracker_ok (file_path output_dir : string) (g : Globals) :
  tracker_ok g →
  tracker_ok
    (call_process_document_complete rag_instance file_path output_dir g).2.
Proof using engine_ok.
  intros Hg. unfold call_process_document_complete.
  destruct rag_instance as [rag|] eqn:Hrag; [|done].
  destruct (engine_ok rag eq_refl) as (H & _). by apply H.
Qed.

Lemma process_document_keeps_tracker_ok (doc_id file_path : string)
    (g : Globals) :
  tracker_ok g →
  tracker_ok (process_document cfg rag_instance doc_id file_path g).2.
Proof using engine_ok.
  intros Hg. rewrite process_document_cases.
  destruct (processing_status g !! doc_id) as [r0|] eqn:Hr0; [|done].
  assert (Hawait : tracker_ok (at_await cfg doc_id r0 g)).
  { apply map_Forall_insert_2; [|done].
    apply record_ok_processing. by apply (Hg doc_id). }
  pose proof (call_keeps_tracker_ok file_path
                (path_join (working_dir cfg) doc_id) _ Hawait) as Hresumed.
  destruct (call_process_document_complete _ _ _ _) as [outcome g2].
  cbn in Hresumed.
  destruct (processing_status g2 !! doc_id) as [r2|] eqn:Hr2; [|done].
  cbn. apply tracker_ok_with_record; [|done].
  destruct outcome.
  - apply record_ok_failed. by apply (Hresumed doc_id).
  - apply record_ok_completed. by apply (Hresumed doc_id).
Qed.

Lemma handle_keeps_tracker_ok (req : Request) (g : Globals) :
  tracker_ok g → tracker_ok (handle cfg rag_instance ainsert store_file req g).
Proof using engine_ok.
  intros Hg. destruct req as [file uuid4 utcnow| |doc_id|request elapsed
                             |request|request]; cbn [handle].
  - unfold upload_document. destruct rag_instance; [|done].
    destruct (store_file _ _ _ _) as [[e|u] disk]; [done|]. cbn.
    apply map_Forall_insert_2; [apply record_ok_pending | done].
  - unfold run_background_task.
    destruct (background_tasks g) as [|[doc_id file_path] rest]; [done|].
    by apply process_document_keeps_tracker_ok.
  - unfold delete_document.
    destruct (processing_status g !! doc_id); [|done]. cbn.
    by apply map_Forall_delete.
  - unfold query. destruct rag_instance as [rag|] eqn:Hrag; [|done].
    destruct (engine_ok rag eq_refl) as (_ & Hq & Hmm & _).
    unfold bind, ret.
    destruct (QueryRequest.multimodal request).
    + specialize (Hmm (QueryRequest.query request) (QueryRequest.mode request)
                    g Hg).
      destruct (aquery_with_multimodal rag _ _ g) as [[e|result] g1]; [done|].
      destruct (answer_of result) as [e|value]; [done|].
      by destruct (str_field value).
    + specialize (Hq (QueryRequest.query request) (QueryRequest.mode request)
                    g Hg).
      destruct (aquery rag _ _ g) as [[e|result] g1]; [done|].
      destruct (answer_of result) as [e|value]; [done|].
      by destruct (str_field value).
  - unfold insert_content. destruct rag_instance as [rag|] eqn:Hrag; [|done].
    destruct (engine_ok rag eq_refl) as (_ & _ & _ & Hins).
    specialize (Hins (InsertRequest.content request)
                  (default ∅ (InsertRequest.metadata request))
                  (InsertRequest.doc_id request) g Hg).
    by destruct (ainsert _ _ _ g) as [[e|u] g1].
  - unfold analyze_product. destruct rag_instance as [rag|] eqn:Hrag; [|done].
    destruct (engine_ok rag eq_refl) as (_ & Hq & _).
    specialize (Hq (query_text request) "hybrid" g Hg).
    unfold bind, ret.
    destruct (aquery rag _ _ g) as [[e|result] g1]; [done|].
    by destruct (answer_of result).
Qed.

(** X9. Along every sequence of requests (uploads, background tasks,
    deletions, queries, inserts, product analyses), provided the engine
    calls resume in a well-formed tracker when suspended in one, every
    record answered by a status query carries the identifier it is stored
    under, has one of the four statuses, has progress 0.0 and no error
    while pending, progress 0.1 while processing, progress 1.0 when
    completed, and an error when failed. *)
Theorem serve_keeps_tracker_ok (reqs : list Request) (g : Globals) :
  tracker_ok g →
  tracker_ok (serve cfg rag_instance ainsert store_file reqs g) ∧
  ∀ id r,
    get_document_status id (serve cfg rag_instance ainsert store_file reqs g)
      = inr r →
    record_ok id r.
Proof using engine_ok.
  intros Hg.
  assert (Hserved : tracker_ok (serve cfg rag_instance ainsert store_file reqs g)).
  { revert g Hg. induction reqs as [|req reqs IH]; intros g Hg; [done|].
    cbn. apply IH. by apply handle_keeps_tracker_ok. }
  split; [done|]. intros id r. unfold get_document_status.
  destruct (processing_status _ !! id) as [r'|] eqn:Hr; [|done].
  intros [= <-]. by apply (Hserved id).
Qed.

End Invariant.

Lemma sample_engine_keeps (P : Globals → Prop) :
  ∀ rag, Some Sample.engine = Some rag → engine_keeps P rag sample_ainsert.
Proof. intros rag [= <-]. by repeat split. Qed.

Lemma serve_keeps_tracker_ok_witness :
  record_ok "d1"
    (DocumentStatus.mk "d1" "report.pdf" "completed" 1.0%float None
       "2025-01-01T00:00:00").
Proof.
  destruct (serve_keeps_tracker_ok config (Some Sample.engine) sample_ainsert
              Sample.store_file (sample_engine_keeps tracker_ok)
              [Upload Sample.report "d1" "2025-01-01T00:00:00"; RunTask]
              Sample.empty) as [_ H].
  - apply map_Forall_empty.
  - apply H. vm_compute. reflexivity.
Defined.

Lemma process_document_untracked_witness :
  process_document config (Some Sample.engine) "d1"
    "/data/documents/d1/report.pdf" Sample.empty =
  (inl (mkExn KeyError "'d1'"), Sample.empty).
Proof.
  apply (process_document_untracked config (Some Sample.engine) "d1"
           "/data/documents/d1/report.pdf" Sample.empty).
  apply lookup_empty.
Defined.

(** ** Upload followed by delete *)

(** X10. After a successful upload under an identifier that was not
    tracked, deleting that identifier succeeds and restores the status
    map; the upload directory and the output directory of the identifier
    are gone, and everything on disk outside the two is as the upload left
    it: what the upload wrote outside its directory (a file name that
    climbs out of it, or an absolute one) survives the deletion. When the
    upload touched the disk below its directory only, the directory exists
    afterwards, and the two directories held nothing before, the disk is
    restored exactly. The processing task of the upload stays queued, and
    when it runs it raises [KeyError]. *)
Theorem upload_then_delete (cfg : Config) (rag_instance : option RAGAnything)
    (store_file :
       string → string → string → gmap string (gmap string string) →
       (PyExn + ()) * gmap string (gmap string string))
    (file : UploadFile.t) (uuid4 utcnow : string) (g g1 : Globals)
    (resp : UploadResponse.t) :
  upload_document cfg rag_instance store_file file uuid4 utcnow g
    = (inr resp, g1) →
  processing_status g !! uuid4 = None →
  let doc_dir := path_join (documents_dir cfg) uuid4 in
  let output_dir := path_join (working_dir cfg) uuid4 in
  let file_path := path_join doc_dir (UploadFile.filename file) in
  ∃ g2,
    delete_document cfg uuid4 g1 = (inr "deleted", g2) ∧
    processing_status g2 = processing_status g ∧
    background_tasks g2 = background_tasks g ++ [(uuid4, file_path)] ∧
    process_document cfg rag_instance uuid4 file_path g2 =
      (inl (mkExn KeyError ("'" +:+ uuid4 +:+ "'")), g2) ∧
    fs g2 !! doc_dir = None ∧
    fs g2 !! output_dir = None ∧
    (∀ p, under doc_dir p = false → under output_dir p = false →
          fs g2 !! p = fs g1 !! p) ∧
    ((∀ p, under doc_dir p = false → fs g1 !! p = fs g !! p) →
     is_Some (fs g1 !! doc_dir) →
     (∀ p, under doc_dir p = true ∨ under output_dir p = true →
           fs g !! p = None) →
     fs g2 = fs g).
Proof.
  intros Hup Hfresh doc_dir output_dir file_path.
  destruct (upload_document_success_inv _ _ _ _ _ _ _ _ _ Hup)
    as (_ & _ & _ & Hmap & Hqueue).
  assert (Htracked : processing_status g1 !! uuid4 =
                     Some (DocumentStatus.mk uuid4 (UploadFile.filename file)
                             "pending" 0.0%float None utcnow)).
  { rewrite Hmap. apply lookup_insert_eq. }
  pose proof (lookup_two_rmtree (fs g1) doc_dir output_dir) as Hdisk.
  cbn zeta in Hdisk.
  eexists. split.
  { unfold delete_document. rewrite Htracked. reflexivity. }
  cbn [processing_status fs background_tasks].
  fold doc_dir output_dir.
  split; [by rewrite Hmap, delete_insert_id|].
  split; [done|]. split.
  { rewrite process_document_cases. cbn [processing_status].
    by rewrite Hmap, delete_insert_id, Hfresh. }
  split.
  { rewrite Hdisk, under_refl, andb_true_r.
    unfold path_exists at 1. case_bool_decide as Hex; [done|].
    apply eq_None_not_Some in Hex. rewrite Hex. by destruct (_ && _). }
  split.
  { rewrite Hdisk, under_refl, andb_true_r.
    unfold path_exists at 2. case_bool_decide as Hex.
    - by rewrite orb_true_r.
    - apply eq_None_not_Some in Hex. rewrite Hex. by destruct (_ || _). }
  split.
  { intros p Hu1 Hu2. by rewrite Hdisk, Hu1, Hu2, !andb_false_r. }
  intros Hinside Hexists Hempty. apply map_eq. intros p. rewrite Hdisk.
  assert (Hex : path_exists (fs g1) doc_dir = true).
  { unfold path_exists. by apply bool_decide_eq_true_2. }
  rewrite Hex. cbn [andb].
  destruct (under doc_dir p) eqn:Hu1; cbn [orb].
  { symmetry. apply Hempty. by left. }
  rewrite (Hinside p Hu1).
  destruct (under output_dir p) eqn:Hu2.
  - rewrite (Hempty p) by (by right). by destruct (_ && _).
  - by rewrite andb_false_r.
Qed.

Lemma upload_then_delete_witness :
  ∃ g2,
    delete_document config "d1"
      {| processing_status := <["d1" := Sample.doc]> ∅;
         fs := {["/data/documents/d1" := {["report.pdf" := "%PDF-1.7"]}]};
         background_tasks := [("d1", "/data/documents/d1/report.pdf")] |}
    = (inr "deleted", g2) ∧
    processing_status g2 = ∅ ∧
    fs g2 !! "/data/documents/d1" = None.
Proof.
  destruct (upload_then_delete config (Some Sample.engine) Sample.store_file
              Sample.report "d1" "2025-01-01T00:00:00" Sample.empty _ _
              sample_upload)
    as (g2 & Hdel & Hmap & _ & _ & Hgone & _).
  - apply lookup_empty.
  - exists g2. split; [exact Hdel|]. split; [exact Hmap | exact Hgone].
Defined.

(** ** Counting and listing *)

Lemma elem_of_list_documents (g : Globals) (r : DocumentStatus.t) :
  r ∈ list_documents g ↔ ∃ id, processing_status g !! id = Some r.
Proof.
  unfold list_documents. rewrite list_elem_of_fmap. split.
  - intros ([id r'] & -> & Hin). exists id. by apply elem_of_map_to_list.
  - intros [id Hid]. exists (id, r). split; [done|].
    by apply elem_of_map_to_list.
Qed.

(** X11. The documents listed are exactly the records a status query can
    answer, and their number is the [documents_processed] of the health
    check. An upload that returns a response raises that number by one
    when its identifier is new and leaves it when the identifier is already
    tracked; an upload that fails leaves it. The deletion of a tracked
    document lowers it by one, that of an unknown one leaves it. *)
Theorem documents_listed_and_counted (cfg : Config) (rag : RAGAnything)
    (localai_get qdrant_get : string → PyExn + Z) (g : Globals) :
  let counted g' :=
    HealthResponse.documents_processed
      (health_check cfg (Some rag) localai_get qdrant_get g') in
  (∀ r, r ∈ list_documents g ↔ ∃ id, get_document_status id g = inr r) ∧
  length (list_documents g) = counted g ∧
  (∀ store_file file uuid4 utcnow,
     counted (upload_document cfg (Some rag) store_file file uuid4 utcnow g).2 =
     match (upload_document cfg (Some rag) store_file file uuid4 utcnow g).1 with
     | inr _ =>
         if decide (is_Some (processing_status g !! uuid4))
         then counted g else S (counted g)
     | inl _ => counted g
     end) ∧
  (∀ doc_id,
     counted (delete_document cfg doc_id g).2 =
     if decide (is_Some (processing_status g !! doc_id))
     then pred (counted g) else counted g).
Proof.
  intros counted. unfold counted. cbn [health_check HealthResponse.documents_processed].
  split; [|split; [|split]].
  - intros r. rewrite elem_of_list_documents. unfold get_document_status.
    split; intros [id Hid]; exists id.
    + by rewrite Hid.
    + destruct (processing_status g !! id); by simplify_eq.
  - unfold list_documents. by rewrite length_fmap, length_map_to_list.
  - intros store_file file uuid4 utcnow. unfold upload_document.
    destruct (store_file _ _ _ _) as [[e|u] disk]; [done|]. cbn.
    rewrite map_size_insert.
    case_decide as Hin.
    + by destruct Hin as [r ->].
    + apply eq_None_not_Some in Hin. by rewrite Hin.
  - intros doc_id. unfold delete_document.
    case_decide as Hin.
    + destruct Hin as [r Hr]. rewrite Hr. cbn.
      by rewrite map_size_delete, Hr.
    + apply eq_None_not_Some in Hin. by rewrite Hin.
Qed.

(** ** Startup and the degraded mode *)

(** X12. [initialize_rag] leaves the instance unset exactly when the import
    or the construction failed, and never touches the status map. With the
    instance unset, upload, query, insert and product analysis all answer
    503 and leave the store as it is, and the health check reports
    [rag_initialized = false] with status initializing. Called with an
    instance already set, it changes nothing. *)
Theorem initialize_rag_degraded (cfg : Config) (imported : PyExn + unit)
    (constructed : PyExn + RAGAnything) (g : Globals) :
  let rag_instance := (initialize_rag cfg imported constructed None g).1 in
  let g' := (initialize_rag cfg imported constructed None g).2 in
  (rag_instance = None ↔
   (∃ e, imported = inl e) ∨ (∃ e, constructed = inl e)) ∧
  processing_status g' = processing_status g ∧
  (rag_instance = None →
   (∀ store_file file uuid4 utcnow,
      upload_document cfg rag_instance store_file file uuid4 utcnow g' =
      (inl (HTTP 503 "RAG not initialized"), g')) ∧
   (∀ request elapsed,
      query rag_instance request elapsed g' =
      (inl (HTTP 503 "RAG not initialized"), g')) ∧
   (∀ ainsert request,
      insert_content rag_instance ainsert request g' =
      (inl (HTTP 503 "RAG not initialized"), g')) ∧
   (∀ request,
      analyze_product rag_instance request g' =
      (inl (HTTP 503 "RAG not initialized"), g')) ∧
   (∀ localai_get qdrant_get,
      let h := health_check cfg rag_instance localai_get qdrant_get g' in
      HealthResponse.rag_initialized h = false ∧
      HealthResponse.status h = "initializing")) ∧
  (∀ rag imported' constructed',
     initialize_rag cfg imported' constructed' (Some rag) g = (Some rag, g)).
Proof.
  intros rag_instance g'. unfold rag_instance, g'.
  destruct imported as [e|[]]; cbn.
  - repeat split; eauto.
  - destruct constructed as [e|rag]; cbn.
    + repeat split; eauto.
    + repeat split; try done.
      intros [[e He]|[e He]]; discriminate.
Qed.

(** ** Errors of the endpoints *)


(** ** Query and product analysis *)

(** X14. What [query] does not look at: the answer does not depend on
    [top_k]; with [multimodal] false it depends on the engine through
    [aquery] alone, with [multimodal] true through
    [aquery_with_multimodal] alone; and [query_multimodal] is [query] with
    the flag forced to true, whatever the request says. *)
Theorem query_dispatch (rag rag' : RAGAnything) (q mode : string)
    (elapsed : float) (g : Globals) :
  (∀ mm k k',
     query (Some rag) (QueryRequest.mk q mode mm k) elapsed g =
     query (Some rag) (QueryRequest.mk q mode mm k') elapsed g) ∧
  (aquery rag q mode g = aquery rag' q mode g →
   ∀ k, query (Some rag) (QueryRequest.mk q mode false k) elapsed g =
        query (Some rag') (QueryRequest.mk q mode false k) elapsed g) ∧
  (aquery_with_multimodal rag q mode g = aquery_with_multimodal rag' q mode g →
   ∀ k, query (Some rag) (QueryRequest.mk q mode true k) elapsed g =
        query (Some rag') (QueryRequest.mk q mode true k) elapsed g) ∧
  (∀ mm k,
     query_multimodal (Some rag) (QueryRequest.mk q mode mm k) elapsed g =
     query (Some rag) (QueryRequest.mk q mode true k) elapsed g).
Proof.
  split; [done|]. split; [|split; [|done]].
  - intros Heq k. unfold query, bind. cbn. by rewrite Heq.
  - intros Heq k. unfold query, bind. cbn. by rewrite Heq.
Qed.

(** X15. Product analysis against the hybrid-mode query on the text path
    for the prompt built from the request. The two call the engine alike;
    the query validates the answer extracted as a [str] when it builds its
    response, product analysis returns it as it is. So where the query
    returns a response, the analysis is a value that validates to the
    answer of that response; where the query fails, product analysis fails
    with the same error, unless the failure was the validation of the
    answer: then product analysis succeeds, with the value the query
    refused. The [product_asin] returned is the [asin] entry of the product,
    absent when the product has none. *)
Theorem analyze_product_versus_query (rag_instance : option RAGAnything)
    (request : ProductAnalysisRequest.t) (top_k : Z) (elapsed : float)
    (g : Globals) :
  let asin := ProductAnalysisRequest.product_info request !! "asin" in
  match query rag_instance
          (QueryRequest.mk (query_text request) "hybrid" false top_k)
          elapsed g with
  | (inr r, g') =>
      ∃ value,
        analyze_product rag_instance request g =
          (inr (ProductAnalysis.mk value asin), g') ∧
        str_field value = inr (QueryResponse.answer r)
  | (inl err, g') =>
      analyze_product rag_instance request g = (inl err, g') ∨
      ∃ repr e,
        analyze_product rag_instance request g =
          (inr (ProductAnalysis.mk (PyObject repr (inl e)) asin), g') ∧
        err = HTTP 500 (exn_str e)
  end.
Proof.
  intros asin. unfold analyze_product, query.
  destruct rag_instance as [rag|]; [|by left].
  unfold bind, ret. cbn.
  destruct (aquery rag _ _ g) as [[e|result] g1]; [by left|].
  destruct (answer_of result) as [e|[s|repr [e|a]]].
  - by left.
  - by exists (PyStr s).
  - right. by exists repr, e.
  - by exists (PyObject repr (inr a)).
Qed.

(** An engine whose dict holds [None] as its answer: the query answers 500
    with the text of the validation error, product analysis answers with
    the [None]. *)
Example analyze_product_unvalidated :
  let refused := mkExn OtherError "1 validation error for QueryResponse" in
  let rag :=
    {| process_document_complete := λ _ _ g, (inr (), g);
       aquery :=
         λ _ _ g,
           (inr (ResDict {["answer" := PyObject "None" (inl refused)]} "{...}"),
            g);
       aquery_with_multimodal := λ _ _ g, (inr (ResStr ""), g) |} in
  let request := ProductAnalysisRequest.mk {["asin" := "B000"]} "Analyze" in
  query (Some rag) (QueryRequest.mk (query_text request) "hybrid" false 5)
    0.25%float Sample.empty =
    (inl (HTTP 500 "1 validation error for QueryResponse"), Sample.empty) ∧
  analyze_product (Some rag) request Sample.empty =
    (inr (ProductAnalysis.mk (PyObject "None" (inl refused)) (Some "B000")),
     Sample.empty).
Proof. vm_compute. by split. Qed.

Lemma initialize_rag_degraded_witness :
  upload_document config
    (initialize_rag config (inl (mkExn OtherError "No module named 'raganything'"))
       (inr Sample.engine) None Sample.empty).1
    Sample.store_file Sample.report "d1" "2025-01-01T00:00:00" Sample.empty =
  (inl (HTTP 503 "RAG not initialized"), Sample.empty).
Proof.
  destruct (initialize_rag_degraded config
              (inl (mkExn OtherError "No module named 'raganything'"))
              (inr Sample.engine) Sample.empty) as (_ & _ & H & _).
  destruct (H eq_refl) as (Hupload & _).
  apply Hupload.
Defined.


Lemma query_dispatch_witness :
  query (Some Sample.engine) (QueryRequest.mk "pricing" "hybrid" false 5)
    0.25%float Sample.empty =
  query (Some {| process_document_complete :=
                   process_document_complete Sample.engine;
                 aquery := aquery Sample.engine;
                 aquery_with_multimodal :=
                   aquery_with_multimodal (Sample.failing_engine "down") |})
    (QueryRequest.mk "pricing" "hybrid" false 5) 0.25%float Sample.empty.
Proof.
  destruct (query_dispatch Sample.engine
              {| process_document_complete :=
                   process_document_complete Sample.engine;
                 aquery := aquery Sample.engine;
                 aquery_with_multimodal :=
                   aquery_with_multimodal (Sample.failing_engine "down") |}
              "pricing" "hybrid" 0.25%float Sample.empty) as (_ & H & _).
  apply H. reflexivity.
Defined.

(** ** Upload followed by its background task *)

(** X16. With no task waiting, an upload that returned a response,
    followed by the run of its background task, has the engine called on
    the path of the file as [pathlib] joined it, and leaves the document, under the
    identifier returned, with the file name and creation time of the
    upload and no other change than: status completed and progress 1.0
    when the engine returned, status failed, progress 0.1 and the text of
    the exception as error when it raised (the record not being touched
    during the call). *)
Theorem upload_then_process (cfg : Config) (rag : RAGAnything)
    (store_file :
       string → string → string → gmap string (gmap string string) →
       (PyExn + ()) * gmap string (gmap string string))
    (file : UploadFile.t) (uuid4 utcnow : string) (g g1 g2 : Globals)
    (resp : UploadResponse.t) (outcome : PyExn + unit) :
  background_tasks g = [] →
  upload_document cfg (Some rag) store_file file uuid4 utcnow g
    = (inr resp, g1) →
  let uploaded :=
    DocumentStatus.mk uuid4 (UploadFile.filename file) "pending" 0.0%float
      None utcnow in
  let waiting :=
    at_await cfg uuid4 uploaded
      {| processing_status := processing_status g1;
         fs := fs g1;
         background_tasks := [] |} in
  process_document_complete rag
    (path_join (path_join (documents_dir cfg) uuid4) (UploadFile.filename file))
    (path_join (working_dir cfg) uuid4) waiting = (outcome, g2) →
  processing_status g2 !! uuid4 = processing_status waiting !! uuid4 →
  (run_background_task cfg (Some rag) g1).1 = inr () ∧
  background_tasks (run_background_task cfg (Some rag) g1).2
    = background_tasks g2 ∧
  background_tasks waiting = [] ∧
  get_document_status uuid4 (run_background_task cfg (Some rag) g1).2 =
  inr match outcome with
      | inr _ =>
          DocumentStatus.mk uuid4 (UploadFile.filename file) "completed"
            1.0%float None utcnow
      | inl e =>
          DocumentStatus.mk uuid4 (UploadFile.filename file) "failed"
            0.1%float (Some (exn_str e)) utcnow
      end.
Proof.
  intros Hqueue Hup uploaded waiting Hcall Hsame.
  destruct (upload_document_success_inv _ _ _ _ _ _ _ _ _ Hup)
    as (_ & _ & _ & Hmap & Htasks).
  assert (Hr2 : processing_status g2 !! uuid4 =
                Some (DocumentStatus.set_progress 0.1%float
                        (DocumentStatus.set_status "processing" uploaded))).
  { rewrite Hsame. unfold waiting. cbn. apply lookup_insert_eq. }
  assert (Hrun : run_background_task cfg (Some rag) g1 =
                 process_document cfg (Some rag) uuid4
                   (path_join (path_join (documents_dir cfg) uuid4)
                      (UploadFile.filename file))
                   {| processing_status := processing_status g1;
                      fs := fs g1;
                      background_tasks := [] |}).
  { unfold run_background_task. by rewrite Htasks, Hqueue. }
  rewrite Hrun.
  rewrite (process_document_resume cfg (Some rag) uuid4 _ _ g2 uploaded
             (DocumentStatus.set_progress 0.1%float
                (DocumentStatus.set_status "processing" uploaded))
             outcome); [| |exact Hcall|exact Hr2].
  - cbn. repeat split.
    unfold get_document_status. cbn. rewrite lookup_insert_eq.
    by destruct outcome.
  - cbn. rewrite Hmap. apply lookup_insert_eq.
Qed.

Lemma upload_then_process_witness :
  get_document_status "d1"
    (run_background_task config (Some (Sample.failing_engine "parse error"))
       {| processing_status := <["d1" := Sample.doc]> ∅;
          fs := {["/data/documents/d1" := {["report.pdf" := "%PDF-1.7"]}]};
          background_tasks := [("d1", "/data/documents/d1/report.pdf")] |}).2 =
  inr (DocumentStatus.mk "d1" "report.pdf" "failed" 0.1%float
         (Some "parse error") "2025-01-01T00:00:00").
Proof.
  eapply (upload_then_process config (Sample.failing_engine "parse error")
            Sample.store_file Sample.report "d1" "2025-01-01T00:00:00"
            Sample.empty _ _ _ (inl (mkExn OtherError "parse error"))).
  - reflexivity.
  - apply (upload_document_stored config Sample.store_file Sample.report "d1"
             "2025-01-01T00:00:00" (Sample.failing_engine "parse error")
             Sample.empty).
    exact sample_store_report.
  - reflexivity.
  - reflexivity.
Defined.

(** ** The embeddings adapter: failures *)

Section EmbeddingFailure.

Context {Client : Type}.
Variable embeddings_create :
  string → list string → Client → (PyExn + list (list float)) * Client.
Variable cfg : Config.

Local Abbreviation embedding_loop := (embedding_loop embeddings_create cfg).
Local Abbreviation embedding_func := (embedding_func embeddings_create cfg).
Local Abbreviation answered := (answered embeddings_create cfg).
Local Abbreviation slice texts :=
  (λ i : nat, py_slice texts i (i + batch_size)).

(** A loop that raises was refused one batch, after the batches before it
    were answered; that batch is the last one sent. *)
Lemma embedding_loop_failure_inv (texts : list string) (starts : list nat)
    (acc : list (list float)) (sent sent' : list (list string))
    (c c' : Client) (e : PyExn) :
  embedding_loop texts starts acc sent c = (inl e, sent', c') →
  ∃ s1 i s2 resps c1,
    starts = s1 ++ i :: s2 ∧
    answered c (slice texts <$> s1) resps c1 ∧
    embeddings_create (embedding_model cfg) (slice texts i) c1 = (inl e, c') ∧
    sent' = sent ++ (slice texts <$> s1) ++ [slice texts i].
Proof.
  revert acc sent c. induction starts as [|i starts IH]; intros acc sent c Hrun.
  - discriminate.
  - cbn [RagAnything.embedding_loop] in Hrun.
    destruct (embeddings_create _ _ c) as [[e0|response] c0] eqn:Hcreate.
    + injection Hrun as <- <- <-.
      exists [], i, starts, [], c. repeat split; [constructor | done].
    + apply IH in Hrun as (s1 & j & s2 & resps & c1 & -> & Hans & Hfail & ->).
      exists (i :: s1), j, s2, (response :: resps), c1. repeat split.
      * cbn [fmap list_fmap]. by econstructor.
      * done.
      * cbn [fmap list_fmap]. by rewrite <- !app_assoc.
Qed.

(** X17. [embedding_func] on the empty list sends no request and returns
    the empty list. When it raises, the exception is the one of the first
    refused request, unchanged; the batches before it were sent and
    answered in order, the refused one is the last sent, no later batch is
    sent, and the embeddings already received are dropped. *)
Theorem embedding_func_failure (texts : list string) (c : Client) :
  embedding_func [] c = (inr [], [], c) ∧
  ∀ e sent c',
    embedding_func texts c = (inl e, sent, c') →
    ∃ pre b post resps c1,
      batches texts = pre ++ b :: post ∧
      answered c pre resps c1 ∧
      embeddings_create (embedding_model cfg) b c1 = (inl e, c') ∧
      sent = pre ++ [b].
Proof.
  split; [done|]. intros e sent c' Hrun.
  apply embedding_loop_failure_inv in Hrun
    as (s1 & i & s2 & resps & c1 & Hstarts & Hans & Hfail & ->).
  exists (slice texts <$> s1), (slice texts i), (slice texts <$> s2), resps, c1.
  repeat split; try done.
  unfold batches. by rewrite Hstarts, fmap_app.
Qed.

End EmbeddingFailure.

Lemma embedding_func_failure_witness :
  ∃ pre b post resps c1,
    batches (replicate 33 "t") = pre ++ b :: post ∧
    answered flaky_embeddings_create config 0 pre resps c1 ∧
    flaky_embeddings_create (embedding_model config) b c1
      = (inl (mkExn OtherError "connection reset"), 2) ∧
    [replicate 32 "t"; ["t"]] = pre ++ [b].
Proof.
  destruct (embedding_func_failure flaky_embeddings_create config
              (replicate 33 "t") 0) as [_ H].
  apply (H (mkExn OtherError "connection reset") [replicate 32 "t"; ["t"]] 2).
  reflexivity.
Defined.

(** ** The chat adapters *)

Section ChatFacts.

Import RagAdapters.

Context {Client : Type}.
Variable chat_create : ChatRequest → Client → (PyExn + list string) * Client.
Variable cfg : Config.

Local Abbreviation llm_model_func := (llm_model_func chat_create cfg).
Local Abbreviation vision_model_func := (vision_model_func chat_create cfg).

(** X18. [vision_model_func] sends one request to the vision model, with
    the prompt alone as content when there is no image ([None] or the
    empty list). When that request is answered with a choice, its first
    choice is returned and nothing else is sent. When it raises, or comes
    back without a choice, the outcome is that of [llm_model_func] on the
    same prompt and keyword arguments, called in the state the failed
    request left: a second request, to the text model, without the images;
    the failure of the vision request itself is not reported. *)
Theorem vision_model_func_outcomes (prompt : string)
    (images : option (list string)) (kwargs : Kwargs) (c : Client) :
  let request := vision_request cfg prompt images kwargs in
  vision_messages prompt (Some []) = vision_messages prompt None ∧
  (∀ answer rest c1,
     chat_create request c = (inr (answer :: rest), c1) →
     vision_model_func prompt images kwargs c = (inr answer, [request], c1)) ∧
  (∀ c1,
     (∃ e, chat_create request c = (inl e, c1)) ∨
     chat_create request c = (inr [], c1) →
     vision_model_func prompt images kwargs c =
       (let '(outcome, sent, c2) := llm_model_func prompt kwargs c1 in
        (outcome, request :: sent, c2)) ∧
     (vision_model_func prompt images kwargs c).1.2 =
       [request; llm_request cfg prompt kwargs] ∧
     messages (llm_request cfg prompt kwargs) =
       [{| role := "user"; content := Plain prompt |}]).
Proof.
  intros request. split; [done|]. split.
  - intros answer rest c1 Hcreate.
    unfold RagAdapters.vision_model_func. fold request. by rewrite Hcreate.
  - intros c1 Hfail.
    assert (Hrun : vision_model_func prompt images kwargs c =
                   (let '(outcome, sent, c2) := llm_model_func prompt kwargs c1 in
                    (outcome, request :: sent, c2))).
    { unfold RagAdapters.vision_model_func. fold request.
      by destruct Hfail as [[e ->]| ->]. }
    split; [done|]. split; [|done].
    rewrite Hrun. unfold RagAdapters.llm_model_func.
    by destruct (chat_create (llm_request cfg prompt kwargs) c1) as [[e|choices] c2].
Qed.

End ChatFacts.

Lemma vision_model_func_outcomes_witness :
  RagAdapters.vision_model_func RagAdapters.sample_chat config "describe"
    (Some ["aGVsbG8="])
    {| RagAdapters.temperature := None; RagAdapters.max_tokens := None |} 0 =
  (inr "from llama3",
   [RagAdapters.vision_request config "describe" (Some ["aGVsbG8="])
      {| RagAdapters.temperature := None; RagAdapters.max_tokens := None |};
    RagAdapters.llm_request config "describe"
      {| RagAdapters.temperature := None; RagAdapters.max_tokens := None |}],
   2).
Proof.
  destruct (vision_model_func_outcomes RagAdapters.sample_chat config
              "describe" (Some ["aGVsbG8="])
              {| RagAdapters.temperature := None;
                 RagAdapters.max_tokens := None |} 0) as (_ & _ & H).
  destruct (H 1) as (Hrun & _).
  - left. eexists. reflexivity.
  - exact Hrun.
Defined.

(** ** The health check *)

Lemma occurs_cons (old : string) (c : Ascii.ascii) (s : string) :
  occurs old (String c s) = false →
  String.prefix old (String c s) = false ∧ occurs old s = false.
Proof. cbn [occurs]. by rewrite orb_false_iff. Qed.

(** Removing the suffix [/v1] of a URL that holds no other [/v1]. *)
Lemma str_replace_v1_suffix (base : string) :
  occurs "/v1" base = false →
  str_replace "/v1" "" (base +:+ "/v1") = base.
Proof.
  unfold str_replace. induction base as [|c base IH]; intros Hocc.
  - reflexivity.
  - apply occurs_cons in Hocc as [Hhere Hrest].
    rewrite append_cons. cbn [replace_from].
    destruct (String.prefix "/v1" (String c (base +:+ "/v1"))) eqn:Hp.
    + exfalso. apply prefix_app_iff in Hp as [x Hx].
      rewrite !append_cons in Hx. injection Hx as -> Hx.
      destruct base as [|c2 base].
      { vm_compute in Hx. congruence. }
      rewrite append_cons in Hx. injection Hx as -> Hx.
      destruct base as [|c3 base].
      { vm_compute in Hx. congruence. }
      rewrite append_cons in Hx. injection Hx as -> _.
      rewrite (proj2 (prefix_app_iff "/v1" _)) in Hhere; [done|].
      by exists base.
    + f_equal. by apply IH.
Qed.

(** X19. For a LocalAI URL that ends in [/v1] and holds no other [/v1], the
    readiness probe asks the URL without that suffix followed by
    [/readyz], and the Qdrant probe asks [/collections] under the Qdrant
    URL. Each is reported connected exactly when its request came back
    with status 200: an exception or any other status gives false. The
    status and [rag_initialized] depend on the engine instance alone,
    whatever the probes found. *)
Theorem health_check_probes (cfg : Config) (rag_instance : option RAGAnything)
    (localai_get qdrant_get : string → PyExn + Z) (g : Globals)
    (base : string) :
  localai_url cfg = base +:+ "/v1" →
  occurs "/v1" base = false →
  let h := health_check cfg rag_instance localai_get qdrant_get g in
  (HealthResponse.localai_connected h = true ↔
   localai_get (base +:+ "/readyz") = inr 200%Z) ∧
  (HealthResponse.qdrant_connected h = true ↔
   qdrant_get (qdrant_url cfg +:+ "/collections") = inr 200%Z) ∧
  (HealthResponse.status h = "healthy" ↔ is_Some rag_instance) ∧
  (HealthResponse.rag_initialized h = true ↔ is_Some rag_instance).
Proof.
  intros Hurl Hocc h.
  assert (Hprobe : ∀ get url, probe get url = true ↔ get url = inr 200%Z).
  { intros get url. unfold probe. destruct (get url) as [e|code].
    - by split.
    - rewrite bool_decide_eq_true. split; [by intros -> | by intros [= ->]]. }
  unfold h, health_check. cbn.
  rewrite Hurl, (str_replace_v1_suffix base Hocc).
  repeat split; try apply Hprobe.
  - destruct rag_instance; [by eexists | done].
  - by destruct rag_instance; [|intros [? ?]].
  - by apply bool_decide_eq_true_1.
  - by apply bool_decide_eq_true_2.
Qed.

Lemma health_check_probes_witness :
  HealthResponse.localai_connected
    (health_check config None
       (λ url, if decide (url = "http://localai:8080/readyz")
               then inr 200%Z else inr 404%Z)
       (λ _, inl (mkExn OtherError "connection refused")) Sample.empty)
  = true.
Proof.
  apply (health_check_probes config None
           (λ url, if decide (url = "http://localai:8080/readyz")
                   then inr 200%Z else inr 404%Z)
           (λ _, inl (mkExn OtherError "connection refused")) Sample.empty
           "http://localai:8080"); reflexivity.
Defined.

(** ** Flags of the configuration *)

Lemma lower_letter (c : Ascii.ascii) :
  (String (ascii_lower c) "" = "t" → String c "" = "t" ∨ String c "" = "T") ∧
  (String (ascii_lower c) "" = "r" → String c "" = "r" ∨ String c "" = "R") ∧
  (String (ascii_lower c) "" = "u" → String c "" = "u" ∨ String c "" = "U") ∧
  (String (ascii_lower c) "" = "e" → String c "" = "e" ∨ String c "" = "E").
Proof.
  destruct c as [[] [] [] [] [] [] [] []];
    (repeat split; intros H; vm_compute in H;
     first [discriminate H | by left | by right]).
Qed.

(** X20. A flag read as [os.getenv(name, dflt).lower() == "true"] is on
    exactly when the value of the variable, or the default when it is not
    set, is one of the sixteen spellings of the word true by letter case;
    any other value (1, yes, on, the word with a space around it) turns
    it off. *)
Theorem env_flag_spellings (value : option string) (dflt : string) :
  env_flag value dflt = true ↔ default dflt value ∈ true_spellings.
Proof.
  unfold env_flag. rewrite bool_decide_eq_true.
  generalize (default dflt value). clear value dflt. intros s. split.
  - destruct s as [|c1 [|c2 [|c3 [|c4 [|c5 rest]]]]]; cbn [lower]; intros H;
      try discriminate H.
    injection H as H1 H2 H3 H4.
    destruct (lower_letter c1) as (Ht & _ & _ & _).
    destruct (lower_letter c2) as (_ & Hr & _ & _).
    destruct (lower_letter c3) as (_ & _ & Hu & _).
    destruct (lower_letter c4) as (_ & _ & _ & He).
    destruct Ht as [[= ->]|[= ->]]; [by rewrite H1| |];
      (destruct Hr as [[= ->]|[= ->]]; [by rewrite H2| |]);
      (destruct Hu as [[= ->]|[= ->]]; [by rewrite H3| |]);
      (destruct He as [[= ->]|[= ->]]; [by rewrite H4| |]);
      unfold true_spellings;
      repeat first [apply list_elem_of_here | apply list_elem_of_further].
  - unfold true_spellings. rewrite !elem_of_cons, elem_of_nil.
    intros H. repeat (destruct H as [->|H]; [reflexivity|]). done.
Qed.

Lemma env_flag_spellings_witness :
  env_flag (Some "True") "false" = true ∧
  env_flag None "true" = true ∧
  env_flag (Some "1") "true" = false ∧
  env_flag None "false" = false.
Proof.
  split; [|split; [|split]].
  - apply (env_flag_spellings (Some "True") "false").
    unfold true_spellings.
    repeat first [apply list_elem_of_here | apply list_elem_of_further].
  - apply (env_flag_spellings None "true"). apply list_elem_of_here.
  - reflexivity.
  - reflexivity.
Defined.

End RagAnythingExtra.
